(** * GTFS-Realtime .pb parser: entity classification and field flattening

    A shallow embedding of [gtfs_parser.py] (the command-line tool) and of
    [webapp/app.py] (the web handler): the extractors, the loops over the
    entities, the table, and the functions that read and write files,
    together with their properties.

    Conventions of the embedding:
    - a Python [str] is a [string] holding its UTF-8 bytes; the byte-wise
      lexical order of [String.compare] is then the code-point order that
      Python uses to compare [str] objects;
    - a protobuf (proto2) message is a record; an optional field is an
      [option], [HasField] is a test for [Some], and reading an absent
      field yields the default of its type, as the protobuf runtime does;
    - a Python [dict] literal is an association list in insertion order;
    - a function that may raise returns a [result]. *)

From Stdlib Require Import String Ascii List ZArith NArith Bool Lia.
From Stdlib Require Import DecimalString.
From Stdlib Require Import Sorting.Sorted Sorting.Permutation.
From Stdlib Require Import OrderedTypeEx.
Import ListNotations.

Local Open Scope string_scope.
Local Open Scope list_scope.

(** ** Python values *)

(** A Python [float], kept as the bit pattern of its IEEE-754 value: the
    program only copies floats from the message into the record. *)
Inductive pyfloat : Type :=
| Float (bits : N).

(** The objects stored in a flat record. *)
Inductive pyobj : Type :=
| PStr (s : string)
| PInt (n : Z)
| PFloat (x : pyfloat).

(** The static type of a local that holds either an integer read from the
    message or the literal [""] (the stop-time locals of
    [process_trip_update]). *)
Inductive int_or_str : Type :=
| AnInt (n : Z)
| AStr (s : string).

(** [str(n)] for an [int]. *)
Definition py_str_int (n : Z) : string :=
  NilZero.string_of_int (Z.to_int n).

(** The text a replacement field [{v}] of an f-string produces. *)
Definition py_format (v : int_or_str) : string :=
  match v with
  | AnInt n => py_str_int n
  | AStr s => s
  end.

(** [sep.join(xs)]. *)
Definition py_join (sep : string) (xs : list string) : string :=
  String.concat sep xs.

(** Truth value of a [str]: false exactly for the empty string. *)
Definition py_bool_str (s : string) : bool :=
  match s with
  | EmptyString => false
  | String _ _ => true
  end.

(** Truth value of a list or of a repeated field: false exactly when empty. *)
Definition py_bool_list {A : Type} (l : list A) : bool :=
  match l with
  | [] => false
  | _ :: _ => true
  end.

(** A [dict] with [str] keys, in insertion order: the order of the keys of
    the records is the order of the columns of the frame built from them. *)
Definition dict : Type := list (string * pyobj).

Fixpoint dict_get (k : string) (d : dict) : option pyobj :=
  match d with
  | [] => None
  | (k', v) :: rest => if String.eqb k k' then Some v else dict_get k rest
  end.

Definition dict_keys (d : dict) : list string := map fst d.

(** [del d[k]] for every binding of [k]. *)
Fixpoint dict_remove (k : string) (d : dict) : dict :=
  match d with
  | [] => []
  | (k', v) :: rest =>
      if String.eqb k k' then dict_remove k rest
      else (k', v) :: dict_remove k rest
  end.

(** Python's [d1 == d2] on dicts: the same keys bound to the same values,
    whatever the insertion order. *)
Definition dict_equiv (d1 d2 : dict) : Prop :=
  forall k, dict_get k d1 = dict_get k d2.

(** Outcome of code that may raise. *)
Inductive exception : Type :=
| TypeError
| KeyError.

Inductive result (A : Type) : Type :=
| Ok (a : A)
| Raise (e : exception).

Arguments Ok {A} a.
Arguments Raise {A} e.

(** ** The decoded feed ([gtfs_realtime_pb2])

    Only the fields the program reads are kept.  Each message has its own
    module, as each has its own name space in the generated code. *)

Module TripDescriptor.

(** Modelled from the spec: the wire schema's enum table (the generated
    module [gtfs_realtime_pb2] is not part of the sources).  A closed proto2
    enum: the decoder never stores a number without a name in the field. *)
Inductive ScheduleRelationship : Type :=
| SCHEDULED | ADDED | UNSCHEDULED | CANCELED
| REPLACEMENT | DUPLICATED | DELETED.

Definition ScheduleRelationship_Name (v : ScheduleRelationship) : string :=
  match v with
  | SCHEDULED => "SCHEDULED"
  | ADDED => "ADDED"
  | UNSCHEDULED => "UNSCHEDULED"
  | CANCELED => "CANCELED"
  | REPLACEMENT => "REPLACEMENT"
  | DUPLICATED => "DUPLICATED"
  | DELETED => "DELETED"
  end.

Record t : Type := mk {
  trip_id : option string;
  route_id : option string;
  schedule_relationship : option ScheduleRelationship
}.

Definition default : t := mk None None None.

End TripDescriptor.

Module StopTimeEvent.

Record t : Type := mk {
  time : option Z
}.

End StopTimeEvent.

Module StopTimeUpdate.

Record t : Type := mk {
  stop_id : option string;
  arrival : option StopTimeEvent.t;
  departure : option StopTimeEvent.t
}.

End StopTimeUpdate.

Module TripUpdate.

(** [trip] is a required field: a decoded message always carries it. *)
Record t : Type := mk {
  trip : TripDescriptor.t;
  stop_time_update : list StopTimeUpdate.t;
  timestamp : option Z
}.

Definition default : t := mk TripDescriptor.default [] None.

End TripUpdate.

Module VehicleDescriptor.

Record t : Type := mk {
  id : option string;
  label : option string
}.

End VehicleDescriptor.

Module Position.

(** [latitude] and [longitude] are required fields of the message. *)
Record t : Type := mk {
  latitude : pyfloat;
  longitude : pyfloat;
  bearing : option pyfloat;
  speed : option pyfloat
}.

End Position.

Module VehiclePosition.

(** Modelled from the spec: the wire schema's enum table. *)
Inductive VehicleStopStatus : Type :=
| INCOMING_AT | STOPPED_AT | IN_TRANSIT_TO.

Definition VehicleStopStatus_Name (v : VehicleStopStatus) : string :=
  match v with
  | INCOMING_AT => "INCOMING_AT"
  | STOPPED_AT => "STOPPED_AT"
  | IN_TRANSIT_TO => "IN_TRANSIT_TO"
  end.

Record t : Type := mk {
  trip : option TripDescriptor.t;
  vehicle : option VehicleDescriptor.t;
  position : option Position.t;
  stop_id : option string;
  current_status : option VehicleStopStatus;
  timestamp : option Z
}.

Definition default : t := mk None None None None None None.

End VehiclePosition.

Module TimeRange.

Record t : Type := mk {
  start : option Z;
  end_ : option Z
}.

(** Reading an absent [uint64] field yields [0]. *)
Definition get_start (ap : t) : Z :=
  match start ap with Some n => n | None => 0%Z end.

Definition get_end (ap : t) : Z :=
  match end_ ap with Some n => n | None => 0%Z end.

End TimeRange.

Module EntitySelector.

Record t : Type := mk {
  agency_id : option string;
  route_id : option string;
  stop_id : option string
}.

End EntitySelector.

Module Translation.

(** [text] is a required field; [language] is optional. *)
Record t : Type := mk {
  text : string;
  language : option string
}.

(** Reading an absent [string] field yields [""]. *)
Definition get_language (tr : t) : string :=
  match language tr with Some s => s | None => "" end.

End Translation.

Module TranslatedString.

Record t : Type := mk {
  translation : list Translation.t
}.

Definition default : t := mk [].

End TranslatedString.

Module Alert.

(** Modelled from the spec: the wire schema's enum tables. *)
Inductive Cause : Type :=
| UNKNOWN_CAUSE | OTHER_CAUSE | TECHNICAL_PROBLEM | STRIKE | DEMONSTRATION
| ACCIDENT | HOLIDAY | WEATHER | MAINTENANCE | CONSTRUCTION
| POLICE_ACTIVITY | MEDICAL_EMERGENCY.

Inductive Effect : Type :=
| NO_SERVICE | REDUCED_SERVICE | SIGNIFICANT_DELAYS | DETOUR
| ADDITIONAL_SERVICE | MODIFIED_SERVICE | OTHER_EFFECT | UNKNOWN_EFFECT
| STOP_MOVED | NO_EFFECT | ACCESSIBILITY_ISSUE.

Definition Cause_Name (v : Cause) : string :=
  match v with
  | UNKNOWN_CAUSE => "UNKNOWN_CAUSE"
  | OTHER_CAUSE => "OTHER_CAUSE"
  | TECHNICAL_PROBLEM => "TECHNICAL_PROBLEM"
  | STRIKE => "STRIKE"
  | DEMONSTRATION => "DEMONSTRATION"
  | ACCIDENT => "ACCIDENT"
  | HOLIDAY => "HOLIDAY"
  | WEATHER => "WEATHER"
  | MAINTENANCE => "MAINTENANCE"
  | CONSTRUCTION => "CONSTRUCTION"
  | POLICE_ACTIVITY => "POLICE_ACTIVITY"
  | MEDICAL_EMERGENCY => "MEDICAL_EMERGENCY"
  end.

Definition Effect_Name (v : Effect) : string :=
  match v with
  | NO_SERVICE => "NO_SERVICE"
  | REDUCED_SERVICE => "REDUCED_SERVICE"
  | SIGNIFICANT_DELAYS => "SIGNIFICANT_DELAYS"
  | DETOUR => "DETOUR"
  | ADDITIONAL_SERVICE => "ADDITIONAL_SERVICE"
  | MODIFIED_SERVICE => "MODIFIED_SERVICE"
  | OTHER_EFFECT => "OTHER_EFFECT"
  | UNKNOWN_EFFECT => "UNKNOWN_EFFECT"
  | STOP_MOVED => "STOP_MOVED"
  | NO_EFFECT => "NO_EFFECT"
  | ACCESSIBILITY_ISSUE => "ACCESSIBILITY_ISSUE"
  end.

Record t : Type := mk {
  active_period : list TimeRange.t;
  informed_entity : list EntitySelector.t;
  cause : option Cause;
  effect : option Effect;
  header_text : option TranslatedString.t;
  description_text : option TranslatedString.t
}.

Definition default : t := mk [] [] None None None None.

(** Reading an absent enum field yields the default the schema declares. *)
Definition get_cause (a : t) : Cause :=
  match cause a with Some c => c | None => UNKNOWN_CAUSE end.

Definition get_effect (a : t) : Effect :=
  match effect a with Some c => c | None => UNKNOWN_EFFECT end.

(** Reading an absent sub-message yields its default instance. *)
Definition get_header_text (a : t) : TranslatedString.t :=
  match header_text a with Some x => x | None => TranslatedString.default end.

Definition get_description_text (a : t) : TranslatedString.t :=
  match description_text a with
  | Some x => x
  | None => TranslatedString.default
  end.

End Alert.

Module FeedEntity.

(** The three payloads are three optional fields of the message, not a
    [oneof]: the decoder accepts an entity with none or several of them. *)
Record t : Type := mk {
  id : string;
  trip_update : option TripUpdate.t;
  vehicle : option VehiclePosition.t;
  alert : option Alert.t
}.

Definition get_trip_update (e : t) : TripUpdate.t :=
  match trip_update e with Some x => x | None => TripUpdate.default end.

Definition get_vehicle (e : t) : VehiclePosition.t :=
  match vehicle e with Some x => x | None => VehiclePosition.default end.

Definition get_alert (e : t) : Alert.t :=
  match alert e with Some x => x | None => Alert.default end.

End FeedEntity.

Module FeedHeader.

(** Modelled from the spec: the header carries a version string and an
    optional timestamp. *)
Record t : Type := mk {
  version : string;
  timestamp : option Z
}.

End FeedHeader.

Module FeedMessage.

Record t : Type := mk {
  header : FeedHeader.t;
  entity : list FeedEntity.t
}.

End FeedMessage.

(** [msg.HasField(name)] for an optional field read as [option]. *)
Definition HasField {A : Type} (field : option A) : bool :=
  match field with
  | Some _ => true
  | None => false
  end.

(** ** pandas

    The part of [pandas] the program calls.  A frame keeps the Python
    objects of its cells; the conversion of a column to a NumPy dtype is not
    modelled.  So a cell [Val (PStr s)] and a cell [NaN] for a key the
    record lacks are the cells pandas has, while a cell of a number stands
    for the number the record bound: pandas turns a column of [int] with a
    missing cell into floats, and a float NaN of the feed is its missing
    value too.  The properties below that speak of cells speak of the
    cells of strings and of the missing ones. *)

(** A cell of a frame: an object, or the missing-value marker. *)
Inductive cell : Type :=
| Val (v : pyobj)
| NaN.

Record DataFrame : Type := mkDataFrame {
  columns : list string;
  rows : list (list cell)
}.

(** [pd.DataFrame()]. *)
Definition empty_DataFrame : DataFrame := mkDataFrame [] [].

(** The columns of a frame built from records: the keys of the records, in
    the order in which they first appear. *)
Fixpoint add_keys (cols : list string) (keys : list string) : list string :=
  match keys with
  | [] => cols
  | k :: rest =>
      add_keys (if existsb (String.eqb k) cols then cols else cols ++ [k]) rest
  end.

Definition union_keys (data : list dict) : list string :=
  fold_left (fun cols d => add_keys cols (dict_keys d)) data [].

(** The row of a record: a key the record lacks gives a missing value. *)
Definition row_of (cols : list string) (d : dict) : list cell :=
  map (fun c => match dict_get c d with Some v => Val v | None => NaN end) cols.

(** [pd.DataFrame(data)] for a list of dicts. *)
Definition pd_DataFrame (data : list dict) : DataFrame :=
  let cols := union_keys data in
  mkDataFrame cols (map (row_of cols) data).

(** [name in df.columns]. *)
Definition has_column (name : string) (df : DataFrame) : bool :=
  existsb (String.eqb name) (columns df).

Fixpoint index_of (name : string) (cols : list string) : option nat :=
  match cols with
  | [] => None
  | c :: rest =>
      if String.eqb name c then Some 0
      else option_map S (index_of name rest)
  end.

(** [df[name]] as a list. *)
Definition column_values (j : nat) (df : DataFrame) : list cell :=
  map (fun r => nth j r NaN) (rows df).

(** The rows as records ([orient="records"]). *)
Definition to_records (df : DataFrame) : list (list (string * cell)) :=
  map (fun r => combine (columns df) r) (rows df).

(** The keys of a sort on a column of [str] objects.  Sorting compares the
    objects with Python's [<], which raises [TypeError] on a [str] and an
    [int]; only columns holding [str] objects alone are modelled, every
    other column is reported as that error. *)
Fixpoint str_keys (cs : list cell) : option (list string) :=
  match cs with
  | [] => Some []
  | Val (PStr s) :: rest => option_map (cons s) (str_keys rest)
  | _ :: _ => None
  end.

(** Python's [a <= b] on [str]: case-sensitive, by code point. *)
Definition str_le (a b : string) : Prop := String.leb a b = true.

(** [ndarray.argsort] with the default [kind='quicksort'], which is what
    [sort_values] runs when no [kind] is passed.  NumPy documents this kind
    as not stable and leaves its algorithm open, so the embedding takes any
    function that returns a permutation of the positions which puts the
    keys in ascending order. *)
Class ArgSort : Type := {
  argsort : list string -> list nat;
  argsort_perm :
    forall ks, Permutation (argsort ks) (seq 0 (length ks));
  argsort_sorted :
    forall ks, Sorted str_le (map (fun i => nth i ks "") (argsort ks))
}.

(** [rows.take(indexer)]. *)
Definition take (indexer : list nat) (rs : list (list cell)) : list (list cell) :=
  map (fun i => nth i rs []) indexer.

(** [df.sort_values(by)], ascending. *)
Definition sort_values `{ArgSort} (by_ : string) (df : DataFrame)
  : result DataFrame :=
  match index_of by_ (columns df) with
  | None => Raise KeyError
  | Some j =>
      match str_keys (column_values j df) with
      | None => Raise TypeError
      | Some ks => Ok (mkDataFrame (columns df) (take (argsort ks) (rows df)))
      end
  end.

(** ** [gtfs_parser.py]: the command-line tool *)

Module gtfs_parser.

(** The rendering of one stop-time update (body of the loop of
    [process_trip_update]). *)
Definition stop_update_entry (stop_update : StopTimeUpdate.t) : string :=
  let stop_id :=
    match StopTimeUpdate.stop_id stop_update with
    | Some s => s
    | None => ""
    end in
  let arrival_time :=
    match StopTimeUpdate.arrival stop_update with
    | Some ev =>
        match StopTimeEvent.time ev with
        | Some n => AnInt n
        | None => AStr ""
        end
    | None => AStr ""
    end in
  let departure_time :=
    match StopTimeUpdate.departure stop_update with
    | Some ev =>
        match StopTimeEvent.time ev with
        | Some n => AnInt n
        | None => AStr ""
        end
    | None => AStr ""
    end in
  stop_id ++ ":" ++ py_format arrival_time ++ "-" ++ py_format departure_time.

Definition process_trip_update (entity : FeedEntity.t) : dict :=
  let trip_update := FeedEntity.get_trip_update entity in
  let trip := TripUpdate.trip trip_update in
  let trip_id :=
    match TripDescriptor.trip_id trip with Some s => s | None => "" end in
  let route_id :=
    match TripDescriptor.route_id trip with Some s => s | None => "" end in
  let schedule_relationship :=
    match TripDescriptor.schedule_relationship trip with
    | Some v => TripDescriptor.ScheduleRelationship_Name v
    | None => "SCHEDULED"
    end in
  let stop_updates :=
    fold_left (fun acc stop_update => acc ++ [stop_update_entry stop_update])
              (TripUpdate.stop_time_update trip_update) [] in
  [ ("Entity ID", PStr (FeedEntity.id entity));
    ("Type", PStr "trip_update");
    ("Trip ID", PStr trip_id);
    ("Route ID", PStr route_id);
    ("Schedule Relationship", PStr schedule_relationship);
    ("Stop Updates", PStr (py_join "; " stop_updates));
    ("Timestamp",
       match TripUpdate.timestamp trip_update with
       | Some n => PInt n
       | None => PStr ""
       end) ].

Definition process_vehicle_position (entity : FeedEntity.t) : dict :=
  let vehicle := FeedEntity.get_vehicle entity in
  let trip_id :=
    match VehiclePosition.trip vehicle with
    | Some td =>
        match TripDescriptor.trip_id td with Some s => s | None => "" end
    | None => ""
    end in
  let route_id :=
    match VehiclePosition.trip vehicle with
    | Some td =>
        match TripDescriptor.route_id td with Some s => s | None => "" end
    | None => ""
    end in
  let vehicle_id :=
    match VehiclePosition.vehicle vehicle with
    | Some vd =>
        match VehicleDescriptor.id vd with Some s => s | None => "" end
    | None => ""
    end in
  let vehicle_label :=
    match VehiclePosition.vehicle vehicle with
    | Some vd =>
        match VehicleDescriptor.label vd with Some s => s | None => "" end
    | None => ""
    end in
  let latitude :=
    match VehiclePosition.position vehicle with
    | Some p => PFloat (Position.latitude p)
    | None => PStr ""
    end in
  let longitude :=
    match VehiclePosition.position vehicle with
    | Some p => PFloat (Position.longitude p)
    | None => PStr ""
    end in
  let bearing :=
    match VehiclePosition.position vehicle with
    | Some p =>
        match Position.bearing p with
        | Some x => PFloat x
        | None => PStr ""
        end
    | None => PStr ""
    end in
  let speed :=
    match VehiclePosition.position vehicle with
    | Some p =>
        match Position.speed p with
        | Some x => PFloat x
        | None => PStr ""
        end
    | None => PStr ""
    end in
  let current_stop :=
    match VehiclePosition.stop_id vehicle with Some s => s | None => "" end in
  let current_status :=
    match VehiclePosition.current_status vehicle with
    | Some v => VehiclePosition.VehicleStopStatus_Name v
    | None => ""
    end in
  [ ("Entity ID", PStr (FeedEntity.id entity));
    ("Type", PStr "vehicle_position");
    ("Trip ID", PStr trip_id);
    ("Route ID", PStr route_id);
    ("Vehicle ID", PStr vehicle_id);
    ("Vehicle Label", PStr vehicle_label);
    ("Latitude", latitude);
    ("Longitude", longitude);
    ("Bearing", bearing);
    ("Speed", speed);
    ("Current Stop", PStr current_stop);
    ("Current Status", PStr current_status);
    ("Timestamp",
       match VehiclePosition.timestamp vehicle with
       | Some n => PInt n
       | None => PStr ""
       end) ].

(** The rendering of one active period: both bounds are read without a
    [HasField] test. *)
Definition active_period_entry (ap : TimeRange.t) : string :=
  py_str_int (TimeRange.get_start ap) ++ "-" ++ py_str_int (TimeRange.get_end ap).

(** The body of the loop over the informed entities: the [parts] of one
    entity, joined. *)
Definition informed_entry (ie : EntitySelector.t) : string :=
  let parts := [] in
  let parts :=
    match EntitySelector.route_id ie with
    | Some r => parts ++ [("route_id=" ++ r)%string]
    | None => parts
    end in
  let parts :=
    match EntitySelector.stop_id ie with
    | Some s => parts ++ [("stop_id=" ++ s)%string]
    | None => parts
    end in
  let parts :=
    match EntitySelector.agency_id ie with
    | Some a => parts ++ [("agency_id=" ++ a)%string]
    | None => parts
    end in
  py_join " | " parts.

(** The loop [for trans in translations: if trans.language == "he" and
    trans.text: text = trans.text; break], started with the value [text]
    of the variable. *)
Fixpoint he_loop (translations : list Translation.t) (text : string) : string :=
  match translations with
  | [] => text
  | trans :: rest =>
      if String.eqb (Translation.get_language trans) "he"
         && py_bool_str (Translation.text trans)
      then Translation.text trans
      else he_loop rest text
  end.

(** The selection the function runs, with the same statements, once for
    [header_text] and once for [description_text]. *)
Definition select_text (ts : TranslatedString.t) : string :=
  let text := he_loop (TranslatedString.translation ts) "" in
  if negb (py_bool_str text) && py_bool_list (TranslatedString.translation ts)
  then
    match TranslatedString.translation ts with
    | first :: _ => Translation.text first
    | [] => text
    end
  else text.

Definition process_alert (entity : FeedEntity.t) : dict :=
  let alert := FeedEntity.get_alert entity in
  let active_periods :=
    if py_bool_list (Alert.active_period alert)
    then py_join "; " (map active_period_entry (Alert.active_period alert))
    else "" in
  let informed :=
    fold_left (fun acc ie => acc ++ [informed_entry ie])
              (Alert.informed_entity alert) [] in
  let informed_entities := py_join "; " informed in
  let cause := Alert.Cause_Name (Alert.get_cause alert) in
  let effect := Alert.Effect_Name (Alert.get_effect alert) in
  let header_text := select_text (Alert.get_header_text alert) in
  let description_text := select_text (Alert.get_description_text alert) in
  [ ("Entity ID", PStr (FeedEntity.id entity));
    ("Type", PStr "alert");
    ("Active Periods", PStr active_periods);
    ("Informed Entities", PStr informed_entities);
    ("Cause", PStr cause);
    ("Effect", PStr effect);
    ("Header Text", PStr header_text);
    ("Description Text", PStr description_text) ].

(** Truth value of a [dict]: false exactly when it has no key. *)
Definition py_bool_dict (d : dict) : bool := py_bool_list d.

(** One turn of the loop over [feed.entity]: [data] before, [data] after. *)
Definition classify_step (data : list dict) (entity : FeedEntity.t)
  : list dict :=
  if HasField (FeedEntity.trip_update entity) then
    let trip_update_data := process_trip_update entity in
    if py_bool_dict trip_update_data then data ++ [trip_update_data] else data
  else if HasField (FeedEntity.vehicle entity) then
    let vehicle_data := process_vehicle_position entity in
    if py_bool_dict vehicle_data then data ++ [vehicle_data] else data
  else if HasField (FeedEntity.alert entity) then
    let alert_data := process_alert entity in
    if py_bool_dict alert_data then data ++ [alert_data] else data
  else data.

Definition collect_data (feed : FeedMessage.t) : list dict :=
  fold_left classify_step (FeedMessage.entity feed) [].

(** [parse_gtfs_realtime] from the decoded feed on, called without an
    [output_file]: the messages it prints and the file it may write are
    left out.  This is the part that builds the table; the function as a
    whole, with the test of the path, the header lines (the conversion of
    the timestamp may raise) and the export, is
    [gtfs_parser_main.parse_gtfs_realtime] below. *)
Definition parse_gtfs_realtime `{ArgSort} (feed : FeedMessage.t)
  : result DataFrame :=
  let data := collect_data feed in
  if py_bool_list data then
    let df := pd_DataFrame data in
    if has_column "Entity ID" df then sort_values "Entity ID" df
    else Ok df
  else Ok empty_DataFrame.

End gtfs_parser.

(** ** [webapp/app.py]: the extractors of the web handler

    The handler carries its own copy of the three extractors. *)

Module app.

(** The rendering of one stop-time update (body of the loop of
    [process_trip_update]). *)
Definition stop_update_entry (stop_update : StopTimeUpdate.t) : string :=
  let stop_id :=
    match StopTimeUpdate.stop_id stop_update with
    | Some s => s
    | None => ""
    end in
  let arrival_time :=
    match StopTimeUpdate.arrival stop_update with
    | Some ev =>
        match StopTimeEvent.time ev with
        | Some n => AnInt n
        | None => AStr ""
        end
    | None => AStr ""
    end in
  let departure_time :=
    match StopTimeUpdate.departure stop_update with
    | Some ev =>
        match StopTimeEvent.time ev with
        | Some n => AnInt n
        | None => AStr ""
        end
    | None => AStr ""
    end in
  stop_id ++ ":" ++ py_format arrival_time ++ "-" ++ py_format departure_time.

Definition process_trip_update (entity : FeedEntity.t) : dict :=
  let trip_update := FeedEntity.get_trip_update entity in
  let trip := TripUpdate.trip trip_update in
  let trip_id :=
    match TripDescriptor.trip_id trip with Some s => s | None => "" end in
  let route_id :=
    match TripDescriptor.route_id trip with Some s => s | None => "" end in
  let schedule_relationship :=
    match TripDescriptor.schedule_relationship trip with
    | Some v => TripDescriptor.ScheduleRelationship_Name v
    | None => "SCHEDULED"
    end in
  let stop_updates :=
    fold_left (fun acc stop_update => acc ++ [stop_update_entry stop_update])
              (TripUpdate.stop_time_update trip_update) [] in
  [ ("Entity ID", PStr (FeedEntity.id entity));
    ("Trip ID", PStr trip_id);
    ("Route ID", PStr route_id);
    ("Schedule Relationship", PStr schedule_relationship);
    ("Stop Updates", PStr (py_join "; " stop_updates));
    ("Timestamp",
       match TripUpdate.timestamp trip_update with
       | Some n => PInt n
       | None => PStr ""
       end) ].

Definition process_vehicle_position (entity : FeedEntity.t) : dict :=
  let vehicle := FeedEntity.get_vehicle entity in
  let trip_id :=
    match VehiclePosition.trip vehicle with
    | Some td =>
        match TripDescriptor.trip_id td with Some s => s | None => "" end
    | None => ""
    end in
  let route_id :=
    match VehiclePosition.trip vehicle with
    | Some td =>
        match TripDescriptor.route_id td with Some s => s | None => "" end
    | None => ""
    end in
  let vehicle_id :=
    match VehiclePosition.vehicle vehicle with
    | Some vd =>
        match VehicleDescriptor.id vd with Some s => s | None => "" end
    | None => ""
    end in
  let vehicle_label :=
    match VehiclePosition.vehicle vehicle with
    | Some vd =>
        match VehicleDescriptor.label vd with Some s => s | None => "" end
    | None => ""
    end in
  let latitude :=
    match VehiclePosition.position vehicle with
    | Some p => PFloat (Position.latitude p)
    | None => PStr ""
    end in
  let longitude :=
    match VehiclePosition.position vehicle with
    | Some p => PFloat (Position.longitude p)
    | None => PStr ""
    end in
  let bearing :=
    match VehiclePosition.position vehicle with
    | Some p =>
        match Position.bearing p with
        | Some x => PFloat x
        | None => PStr ""
        end
    | None => PStr ""
    end in
  let speed :=
    match VehiclePosition.position vehicle with
    | Some p =>
        match Position.speed p with
        | Some x => PFloat x
        | None => PStr ""
        end
    | None => PStr ""
    end in
  let current_stop :=
    match VehiclePosition.stop_id vehicle with Some s => s | None => "" end in
  let current_status :=
    match VehiclePosition.current_status vehicle with
    | Some v => VehiclePosition.VehicleStopStatus_Name v
    | None => ""
    end in
  [ ("Entity ID", PStr (FeedEntity.id entity));
    ("Trip ID", PStr trip_id);
    ("Route ID", PStr route_id);
    ("Vehicle ID", PStr vehicle_id);
    ("Vehicle Label", PStr vehicle_label);
    ("Latitude", latitude);
    ("Longitude", longitude);
    ("Bearing", bearing);
    ("Speed", speed);
    ("Current Stop", PStr current_stop);
    ("Current Status", PStr current_status);
    ("Timestamp",
       match VehiclePosition.timestamp vehicle with
       | Some n => PInt n
       | None => PStr ""
       end) ].

(** The rendering of one active period: both bounds are read without a
    [HasField] test. *)
Definition active_period_entry (ap : TimeRange.t) : string :=
  py_str_int (TimeRange.get_start ap) ++ "-" ++ py_str_int (TimeRange.get_end ap).

(** The body of the loop over the informed entities: the [parts] of one
    entity, joined. *)
Definition informed_entry (ie : EntitySelector.t) : string :=
  let parts := [] in
  let parts :=
    match EntitySelector.route_id ie with
    | Some r => parts ++ [("route_id=" ++ r)%string]
    | None => parts
    end in
  let parts :=
    match EntitySelector.stop_id ie with
    | Some s => parts ++ [("stop_id=" ++ s)%string]
    | None => parts
    end in
  let parts :=
    match EntitySelector.agency_id ie with
    | Some a => parts ++ [("agency_id=" ++ a)%string]
    | None => parts
    end in
  py_join " | " parts.

(** The loop [for trans in translations: if trans.language == "he" and
    trans.text: text = trans.text; break], started with the value [text]
    of the variable. *)
Fixpoint he_loop (translations : list Translation.t) (text : string) : string :=
  match translations with
  | [] => text
  | trans :: rest =>
      if String.eqb (Translation.get_language trans) "he"
         && py_bool_str (Translation.text trans)
      then Translation.text trans
      else he_loop rest text
  end.

(** The selection the function runs, with the same statements, once for
    [header_text] and once for [description_text]. *)
Definition select_text (ts : TranslatedString.t) : string :=
  let text := he_loop (TranslatedString.translation ts) "" in
  if negb (py_bool_str text) && py_bool_list (TranslatedString.translation ts)
  then
    match TranslatedString.translation ts with
    | first :: _ => Translation.text first
    | [] => text
    end
  else text.

Definition process_alert (entity : FeedEntity.t) : dict :=
  let alert := FeedEntity.get_alert entity in
  let active_periods :=
    if py_bool_list (Alert.active_period alert)
    then py_join "; " (map active_period_entry (Alert.active_period alert))
    else "" in
  let informed :=
    fold_left (fun acc ie => acc ++ [informed_entry ie])
              (Alert.informed_entity alert) [] in
  let informed_entities := py_join "; " informed in
  let cause := Alert.Cause_Name (Alert.get_cause alert) in
  let effect := Alert.Effect_Name (Alert.get_effect alert) in
  let header_text := select_text (Alert.get_header_text alert) in
  let description_text := select_text (Alert.get_description_text alert) in
  [ ("Entity ID", PStr (FeedEntity.id entity));
    ("Active Periods", PStr active_periods);
    ("Informed Entities", PStr informed_entities);
    ("Cause", PStr cause);
    ("Effect", PStr effect);
    ("Header Text", PStr header_text);
    ("Description Text", PStr description_text) ].

End app.

(** ** Reference definitions

    The notions the properties are stated with. *)

(** The preferred translation: the first entry, in list order, tagged
    ["he"] with a non-empty text; failing that the first entry; failing
    that the empty string. *)
Definition he_with_text (tr : Translation.t) : bool :=
  String.eqb (Translation.get_language tr) "he"
  && negb (String.eqb (Translation.text tr) "").

Definition preferred_text (translations : list Translation.t) : string :=
  match find he_with_text translations with
  | Some tr => Translation.text tr
  | None =>
      match translations with
      | first :: _ => Translation.text first
      | [] => ""
      end
  end.

(** An entity is classified when one of the three payloads is populated. *)
Definition classified (entity : FeedEntity.t) : bool :=
  HasField (FeedEntity.trip_update entity)
  || HasField (FeedEntity.vehicle entity)
  || HasField (FeedEntity.alert entity).

(** The record of a classified entity on the command-line path: the first
    populated payload in the order trip update, vehicle, alert. *)
Definition flat_record (entity : FeedEntity.t) : dict :=
  if HasField (FeedEntity.trip_update entity)
  then gtfs_parser.process_trip_update entity
  else if HasField (FeedEntity.vehicle entity)
  then gtfs_parser.process_vehicle_position entity
  else gtfs_parser.process_alert entity.

(** The cell of a row in a named column, and the text of a [str] cell. *)
Definition row_get (df : DataFrame) (name : string) (r : list cell) : cell :=
  match index_of name (columns df) with
  | Some j => nth j r NaN
  | None => NaN
  end.

Definition cell_str (c : cell) : string :=
  match c with
  | Val (PStr s) => s
  | _ => ""
  end.

Definition entity_id_of (df : DataFrame) (r : list cell) : string :=
  cell_str (row_get df "Entity ID" r).

(** Insertion of [x] into a list ordered by a [str] key: [x] goes in front
    of the first element [y] for which [goes_before (key x) (key y)]. *)
Fixpoint insert_by {A : Type} (goes_before : string -> string -> bool)
  (key : A -> string) (x : A) (l : list A) : list A :=
  match l with
  | [] => [x]
  | y :: rest =>
      if goes_before (key x) (key y) then x :: y :: rest
      else y :: insert_by goes_before key x rest
  end.

(** A stable ascending sort by a [str] key: an element goes in front of the
    elements that follow it in the input unless its key is greater, so
    elements with equal keys keep the order they had in the input. *)
Definition stable_sort {A : Type} (key : A -> string) (l : list A) : list A :=
  fold_right (insert_by String.leb key) [] l.

(** ** Two sorts within the contract of [ArgSort]

    Both sort the positions by insertion, from the last position to the
    first.  With [ties_last = false] a position goes in front of the later
    positions that hold an equal key (a stable sort); with
    [ties_last = true] it goes behind them. *)
Definition insertion_argsort (ties_last : bool) (ks : list string) : list nat :=
  fold_right
    (insert_by (if ties_last then String.ltb else String.leb)
               (fun i => nth i ks ""))
    [] (seq 0 (length ks)).

(** ** Inputs used by the examples *)

(** The feed of the scenario: version ["2.0"], timestamp [1700000000], one
    trip update ["tu1"] for trip ["T1"] with one stop-time update (stop
    ["S1"], arrival [100], no departure). *)
Definition entity_tu1 : FeedEntity.t :=
  FeedEntity.mk "tu1"
    (Some (TripUpdate.mk
             (TripDescriptor.mk (Some "T1") None None)
             [StopTimeUpdate.mk (Some "S1")
                (Some (StopTimeEvent.mk (Some 100%Z))) None]
             None))
    None None.

Definition feed_tu1 : FeedMessage.t :=
  FeedMessage.mk (FeedHeader.mk "2.0" (Some 1700000000%Z)) [entity_tu1].

(** The record the scenario expects, with its six columns. *)
Definition six_column_record : dict :=
  [ ("Entity ID", PStr "tu1");
    ("Trip ID", PStr "T1");
    ("Route ID", PStr "");
    ("Schedule Relationship", PStr "SCHEDULED");
    ("Stop Updates", PStr "S1:100-");
    ("Timestamp", PStr "") ].

(** The record the command-line path builds for it. *)
Definition seven_column_record : dict :=
  [ ("Entity ID", PStr "tu1");
    ("Type", PStr "trip_update");
    ("Trip ID", PStr "T1");
    ("Route ID", PStr "");
    ("Schedule Relationship", PStr "SCHEDULED");
    ("Stop Updates", PStr "S1:100-");
    ("Timestamp", PStr "") ].

(** An alert whose only active period has an end and no start. *)
Definition alert_open_start : FeedEntity.t :=
  FeedEntity.mk "a1" None None
    (Some (Alert.mk [TimeRange.mk None (Some 200%Z)] [] None None None None)).

(** An alert with two informed entities, the second without any field. *)
Definition alert_two_informed : FeedEntity.t :=
  FeedEntity.mk "a2" None None
    (Some (Alert.mk []
             [EntitySelector.mk None (Some "R1") None;
              EntitySelector.mk None None None]
             None None None None)).

(** An entity without payload, and a vehicle. *)
Definition entity_bare : FeedEntity.t := FeedEntity.mk "x" None None None.

Definition entity_v1 : FeedEntity.t :=
  FeedEntity.mk "v1" None
    (Some (VehiclePosition.mk None None
             (Some (Position.mk (Float 1107296256) (Float 1108082688) None None))
             None None None))
    None.

(** A feed of eighteen trip updates that all carry the identifier ["a"]
    and differ in their trip.  (It is longer than the short runs that
    NumPy's quicksort sorts by insertion.) *)
Definition entity_a (trip_id : string) : FeedEntity.t :=
  FeedEntity.mk "a"
    (Some (TripUpdate.mk (TripDescriptor.mk (Some trip_id) None None) [] None))
    None None.

Definition feed_shared_id : FeedMessage.t :=
  FeedMessage.mk (FeedHeader.mk "2.0" None)
    (map entity_a
       ["T01"; "T02"; "T03"; "T04"; "T05"; "T06"; "T07"; "T08"; "T09";
        "T10"; "T11"; "T12"; "T13"; "T14"; "T15"; "T16"; "T17"; "T18"]).

(** ** The dispatch of the two loops

    The notions the properties of the loops are stated with. *)

Inductive kind : Type :=
| TripUpdateKind
| VehicleKind
| AlertKind.

(** The extractor the loop of the command-line tool runs on an entity. *)
Definition cli_kind (entity : FeedEntity.t) : option kind :=
  if HasField (FeedEntity.trip_update entity) then Some TripUpdateKind
  else if HasField (FeedEntity.vehicle entity) then Some VehicleKind
  else if HasField (FeedEntity.alert entity) then Some AlertKind
  else None.

(** The extractor the loop of the web handler runs on an entity. *)
Definition web_kind (entity : FeedEntity.t) : option kind :=
  if HasField (FeedEntity.alert entity) then Some AlertKind
  else if HasField (FeedEntity.trip_update entity) then Some TripUpdateKind
  else if HasField (FeedEntity.vehicle entity) then Some VehicleKind
  else None.

Definition cli_extract (k : kind) (entity : FeedEntity.t) : dict :=
  match k with
  | TripUpdateKind => gtfs_parser.process_trip_update entity
  | VehicleKind => gtfs_parser.process_vehicle_position entity
  | AlertKind => gtfs_parser.process_alert entity
  end.

Definition web_extract (k : kind) (entity : FeedEntity.t) : dict :=
  match k with
  | TripUpdateKind => app.process_trip_update entity
  | VehicleKind => app.process_vehicle_position entity
  | AlertKind => app.process_alert entity
  end.

(** The value of the [Type] key on the command-line path, and the
    ["type"] of an entry of the web handler. *)
Definition cli_type_name (k : kind) : string :=
  match k with
  | TripUpdateKind => "trip_update"
  | VehicleKind => "vehicle_position"
  | AlertKind => "alert"
  end.

Definition web_type_name (k : kind) : string :=
  match k with
  | TripUpdateKind => "trip_update"
  | VehicleKind => "vehicle"
  | AlertKind => "alert"
  end.

(** The keys of the records of a kind on the web path; the command-line
    path has [Type] in second place in addition. *)
Definition web_columns (k : kind) : list string :=
  match k with
  | TripUpdateKind =>
      ["Entity ID"; "Trip ID"; "Route ID"; "Schedule Relationship";
       "Stop Updates"; "Timestamp"]
  | VehicleKind =>
      ["Entity ID"; "Trip ID"; "Route ID"; "Vehicle ID"; "Vehicle Label";
       "Latitude"; "Longitude"; "Bearing"; "Speed"; "Current Stop";
       "Current Status"; "Timestamp"]
  | AlertKind =>
      ["Entity ID"; "Active Periods"; "Informed Entities"; "Cause"; "Effect";
       "Header Text"; "Description Text"]
  end.

Definition cli_columns (k : kind) : list string :=
  match web_columns k with
  | first :: rest => first :: "Type" :: rest
  | [] => []
  end.

(** The statements both files run on the collected records:
    [df = pd.DataFrame(data)], then [df.sort_values("Entity ID")] when the
    frame has that column. *)
Definition sorted_frame `{ArgSort} (data : list dict) : result DataFrame :=
  let df := pd_DataFrame data in
  if has_column "Entity ID" df then sort_values "Entity ID" df
  else Ok df.

(** ** The world outside the program

    Files, the console, and the library functions whose results the
    program passes on. *)

(** The files, by path, with their bytes.  Directories, permissions and
    full disks are not modelled: a write succeeds, and a read or a removal
    fails only on a missing file. *)
Definition filesystem : Type := list (string * string).

Fixpoint fs_read (path : string) (fs : filesystem) : option string :=
  match fs with
  | [] => None
  | (p, bytes) :: rest =>
      if String.eqb path p then Some bytes else fs_read path rest
  end.

Definition fs_exists (path : string) (fs : filesystem) : bool :=
  match fs_read path fs with
  | Some _ => true
  | None => false
  end.

Fixpoint fs_remove (path : string) (fs : filesystem) : filesystem :=
  match fs with
  | [] => []
  | (p, bytes) :: rest =>
      if String.eqb path p then fs_remove path rest
      else (p, bytes) :: fs_remove path rest
  end.

Definition fs_write (path bytes : string) (fs : filesystem) : filesystem :=
  (path, bytes) :: fs_remove path fs.

Record world : Type := mkWorld {
  files : filesystem;
  stdout : list string
}.

(** What a statement of the program may raise: the [FileNotFoundError] of a
    missing file, an exception of one of the library functions below, or
    an exception of the sort. *)
Inductive raised : Type :=
| FileNotFoundError (message : string)
| LibraryError (message : string)
| SortError (e : exception).

Inductive outcome (A : Type) : Type :=
| Return (a : A)
| Throw (e : raised).

Arguments Return {A} a.
Arguments Throw {A} e.

(** Statements: from a world to an outcome and the world left behind. *)
Definition io (A : Type) : Type := world -> outcome A * world.

Definition ret {A : Type} (a : A) : io A := fun w => (Return a, w).

Definition throw {A : Type} (e : raised) : io A := fun w => (Throw e, w).

Definition bind_io {A B : Type} (m : io A) (k : A -> io B) : io B :=
  fun w =>
    match m w with
    | (Return a, w') => k a w'
    | (Throw e, w') => (Throw e, w')
    end.

(** [try: m except Exception as e: handler e]. *)
Definition try_except {A : Type} (m : io A) (handler : raised -> io A) : io A :=
  fun w =>
    match m w with
    | (Return a, w') => (Return a, w')
    | (Throw e, w') => handler e w'
    end.

Notation "x <- m ;; k" := (bind_io m (fun x => k))
  (at level 61, m at next level, right associativity).
Notation "m ;; k" := (bind_io m (fun _ => k))
  (at level 61, right associativity).

Definition lift {A : Type} (o : outcome A) : io A := fun w => (o, w).

Definition lift_sort {A : Type} (r : result A) : io A :=
  match r with
  | Ok a => ret a
  | Raise e => throw (SortError e)
  end.

(** [print(line)]. *)
Definition print (line : string) : io unit :=
  fun w => (Return tt, mkWorld (files w) (stdout w ++ [line])).

(** [os.path.exists(path)]. *)
Definition path_exists (path : string) : io bool :=
  fun w => (Return (fs_exists path (files w)), w).

(** [open(path, "rb").read()]; the text of the exception for a missing
    file is not modelled, the program never reads a file it has not found
    or written. *)
Definition read_file (path : string) : io string :=
  fun w =>
    match fs_read path (files w) with
    | Some bytes => (Return bytes, w)
    | None => (Throw (FileNotFoundError path), w)
    end.

(** Writing a whole file ([file.save], [to_csv], [to_json]). *)
Definition write_file (path bytes : string) : io unit :=
  fun w => (Return tt, mkWorld (fs_write path bytes (files w)) (stdout w)).

(** [os.remove(path)]. *)
Definition remove_file (path : string) : io unit :=
  fun w =>
    if fs_exists path (files w)
    then (Return tt, mkWorld (fs_remove path (files w)) (stdout w))
    else (Throw (FileNotFoundError path), w).

(** The library functions the program calls and whose results depend on
    the schema, the time zone, pandas' writers or the operating system.
    They are parameters of the embedding:
    - [ParseFromString]: the decoder of the wire format;
    - [fromtimestamp_str t]: [str(datetime.fromtimestamp(t))], and
      [fromtimestamp_isoformat t]: [datetime.fromtimestamp(t).isoformat()],
      which raise on a time out of range;
    - [to_csv], [to_json]: the bytes pandas writes for a frame with the
      options the program passes;
    - [gettempdir], [path_join], [splitext_root]: [tempfile.gettempdir()],
      [os.path.join(a, b)] and [os.path.splitext(p)[0]]. *)
Class Platform : Type := {
  ParseFromString : string -> outcome FeedMessage.t;
  fromtimestamp_str : Z -> outcome string;
  fromtimestamp_isoformat : Z -> outcome string;
  to_csv : DataFrame -> string;
  to_json : DataFrame -> string;
  gettempdir : string;
  path_join : string -> string -> string;
  splitext_root : string -> string
}.

(** [s.endswith(suffix)]. *)
Definition py_endswith (s suffix : string) : bool :=
  let n := String.length s in
  let m := String.length suffix in
  if Nat.leb m n then String.eqb (String.substring (n - m) m s) suffix
  else false.

(** [s.lower()] on the letters A to Z; other bytes are kept.  The program
    only compares the result with the ASCII literals ['csv'] and ['json'],
    and no character outside ASCII is lowered to one of their letters, so
    the comparison is the one Python makes. *)
Definition lower_ascii (c : ascii) : ascii :=
  let n := nat_of_ascii c in
  if Nat.leb 65 n && Nat.leb n 90 then ascii_of_nat (n + 32) else c.

Fixpoint py_lower (s : string) : string :=
  match s with
  | EmptyString => EmptyString
  | String c rest => String (lower_ascii c) (py_lower rest)
  end.

(** Truth value of an argument that is a [str] or [None]. *)
Definition py_bool_opt_str (s : option string) : bool :=
  match s with
  | Some x => py_bool_str x
  | None => false
  end.

(** [len(xs)] printed in an f-string. *)
Definition py_str_len {A : Type} (xs : list A) : string :=
  py_str_int (Z.of_nat (length xs)).

(** ** [gtfs_parser.py]: the whole of [parse_gtfs_realtime], and [main] *)

Module gtfs_parser_main.

(** The export at the end of the branch [if data:]. *)
Definition export `{Platform} (df : DataFrame) (output_format : string)
  (output_file : option string) : io unit :=
  match output_file with
  | Some path =>
      if py_bool_str path then
        if String.eqb (py_lower output_format) "csv" then
          write_file path (to_csv df) ;;
          print ("CSV file created at: " ++ path)
        else if String.eqb (py_lower output_format) "json" then
          write_file path (to_json df) ;;
          print ("JSON file created at: " ++ path)
        else ret tt
      else ret tt
  | None => ret tt
  end.

Definition parse_gtfs_realtime `{ArgSort} `{Platform}
  (pb_file_path output_format : string) (output_file : option string)
  : io DataFrame :=
  found <- path_exists pb_file_path ;;
  if negb found
  then throw (FileNotFoundError ("File not found: " ++ pb_file_path))
  else
    bytes <- read_file pb_file_path ;;
    feed <- lift (ParseFromString bytes) ;;
    print ("GTFS Realtime Feed Version: "
           ++ FeedHeader.version (FeedMessage.header feed)) ;;
    match FeedHeader.timestamp (FeedMessage.header feed) with
    | Some t =>
        text <- lift (fromtimestamp_str t) ;;
        print ("Feed Timestamp: " ++ text)
    | None => ret tt
    end ;;
    print ("Number of entities: " ++ py_str_len (FeedMessage.entity feed)) ;;
    let data := gtfs_parser.collect_data feed in
    if py_bool_list data then
      df <- lift_sort (sorted_frame data) ;;
      export df output_format output_file ;;
      ret df
    else
      print "No entities were processed." ;;
      ret empty_DataFrame.

(** [main], after [argparse] has read [pb_file], [--format] (one of
    ['csv'] and ['json'], ['csv'] when not given) and [--output]. *)
Definition main `{ArgSort} `{Platform}
  (pb_file format : string) (output : option string) : io unit :=
  let output :=
    if negb (py_bool_opt_str output)
    then
      let base_name := splitext_root pb_file in
      Some (base_name ++ "." ++ format)%string
    else output in
  parse_gtfs_realtime pb_file format output ;;
  ret tt.

End gtfs_parser_main.

(** ** [webapp/app.py]: the two routes *)

Module webapp.

(** An element of [response_data["entities"]]. *)
Record entity_entry : Type := mk_entry {
  entry_id : string;
  entry_type : string;
  entry_data : dict
}.

(** [response_data["feed_info"]]. *)
Record feed_info : Type := mk_feed_info {
  info_version : string;
  info_timestamp : option string;
  info_entity_count : nat
}.

Record entity_counts : Type := mk_counts {
  alerts : nat;
  trip_updates : nat;
  vehicle_positions : nat
}.

(** What a route returns:
    - [json_error status text]: [jsonify({"error": text}), status];
    - [json_exception e]: [jsonify({"error": str(e)}), 500];
    - [json_success]: the body of a successful upload, status 200, without
      its constant fields ([success], [csv_ready], [json_ready]);
    - [send_file]: the file sent as an attachment. *)
Inductive response : Type :=
| json_error (status : nat) (text : string)
| json_exception (e : raised)
| json_success (message : string) (info : feed_info) (counts : entity_counts)
| send_file (path mimetype download_name : string).

(** One turn of the loop of [upload_file]: [data] and
    [response_data["entities"]] before, and after.  (A record is tested
    for its truth value, that of its list of bindings.) *)
Definition classify_step (state : list dict * list entity_entry)
  (entity : FeedEntity.t) : list dict * list entity_entry :=
  let (data, entities) := state in
  let entity_id := FeedEntity.id entity in
  if HasField (FeedEntity.alert entity) then
    let alert_data := app.process_alert entity in
    if py_bool_list alert_data
    then (data ++ [alert_data],
          entities ++ [mk_entry entity_id "alert" alert_data])
    else state
  else if HasField (FeedEntity.trip_update entity) then
    let trip_update_data := app.process_trip_update entity in
    if py_bool_list trip_update_data
    then (data ++ [trip_update_data],
          entities ++ [mk_entry entity_id "trip_update" trip_update_data])
    else state
  else if HasField (FeedEntity.vehicle entity) then
    let vehicle_data := app.process_vehicle_position entity in
    if py_bool_list vehicle_data
    then (data ++ [vehicle_data],
          entities ++ [mk_entry entity_id "vehicle" vehicle_data])
    else state
  else state.

Definition collect (feed : FeedMessage.t) : list dict * list entity_entry :=
  fold_left classify_step (FeedMessage.entity feed) ([], []).

(** [sum(1 for e in entities if e["type"] == type)]. *)
Definition count_type (type : string) (entities : list entity_entry) : nat :=
  list_sum
    (map (fun _ => 1)
         (filter (fun e => String.eqb (entry_type e) type) entities)).

(** The statements of the [try] block of [upload_file]. *)
Definition process_upload `{ArgSort} `{Platform} (filename content : string)
  : io response :=
  let temp_dir := gettempdir in
  let temp_path := path_join temp_dir filename in
  write_file temp_path content ;;
  bytes <- read_file temp_path ;;
  feed <- lift (ParseFromString bytes) ;;
  timestamp <-
    match FeedHeader.timestamp (FeedMessage.header feed) with
    | Some t => text <- lift (fromtimestamp_isoformat t) ;; ret (Some text)
    | None => ret None
    end ;;
  let info :=
    mk_feed_info (FeedHeader.version (FeedMessage.header feed)) timestamp
                 (length (FeedMessage.entity feed)) in
  let (data, entities) := collect feed in
  df <- lift_sort (sorted_frame data) ;;
  let csv_path := path_join temp_dir (splitext_root filename ++ ".csv") in
  write_file csv_path (to_csv df) ;;
  let json_path := path_join temp_dir (splitext_root filename ++ ".json") in
  write_file json_path (to_json df) ;;
  remove_file temp_path ;;
  ret (json_success
         ("Successfully parsed " ++ py_str_len (FeedMessage.entity feed)
          ++ " entities")
         info
         (mk_counts (count_type "alert" entities)
                    (count_type "trip_update" entities)
                    (count_type "vehicle" entities))).

(** [upload_file]; [file] is [request.files] at ['file'], with the name and
    the bytes of the uploaded file, when the request has such a part. *)
Definition upload_file `{ArgSort} `{Platform} (file : option (string * string))
  : io response :=
  match file with
  | None => ret (json_error 400 "No file part")
  | Some (filename, content) =>
      if String.eqb filename ""
      then ret (json_error 400 "No selected file")
      else if negb (py_endswith filename ".pb")
      then ret (json_error 400 "File must be a .pb file")
      else
        try_except (process_upload filename content)
                   (fun e => ret (json_exception e))
  end.

(** [download_file]; [filename] is the query argument of that name, when
    the request has one. *)
Definition download_file `{Platform} (format_type : string)
  (filename : option string) : io response :=
  let filename := match filename with Some s => s | None => "" end in
  if negb (py_bool_str filename)
  then ret (json_error 400 "No filename provided")
  else
    let temp_dir := gettempdir in
    let target :=
      if String.eqb format_type "csv" then
        Some (path_join temp_dir (filename ++ ".csv"),
              "text/csv", (filename ++ ".csv")%string)
      else if String.eqb format_type "json" then
        Some (path_join temp_dir (filename ++ ".json"),
              "application/json", (filename ++ ".json")%string)
      else None in
    match target with
    | None => ret (json_error 400 "Invalid format")
    | Some (file_path, mime_type, download_name) =>
        found <- path_exists file_path ;;
        if negb found then ret (json_error 404 "File not found")
        else ret (send_file file_path mime_type download_name)
    end.

End webapp.

(** The entry the web loop adds for an entity, if any. *)
Definition web_entry (e : FeedEntity.t) : list webapp.entity_entry :=
  match web_kind e with
  | Some k => [webapp.mk_entry (FeedEntity.id e) (web_type_name k)
                               (web_extract k e)]
  | None => []
  end.

(** The record of a classified entity on the web path: the first
    populated payload in the order alert, trip update, vehicle. *)
Definition web_record (entity : FeedEntity.t) : dict :=
  if HasField (FeedEntity.alert entity)
  then app.process_alert entity
  else if HasField (FeedEntity.trip_update entity)
  then app.process_trip_update entity
  else app.process_vehicle_position entity.

(** A feed with a trip update and an alert. *)
Definition feed_mixed : FeedMessage.t :=
  FeedMessage.mk (FeedHeader.mk "2.0" None) [entity_tu1; alert_open_start].

(** An entity that carries a trip update and an alert at once. *)
Definition entity_two_payloads : FeedEntity.t :=
  FeedEntity.mk "both"
    (Some (TripUpdate.mk (TripDescriptor.mk (Some "T1") None None) [] None))
    None
    (Some (Alert.mk [] [] None None None None)).

(** The column names other than [Type]. *)
Definition not_Type (name : string) : bool := negb (String.eqb "Type" name).

(** The header of a feed can be printed: it has no timestamp, or one that
    [fromtimestamp_str] converts. *)
Definition header_printable `{Platform} (feed : FeedMessage.t) : Prop :=
  match FeedHeader.timestamp (FeedMessage.header feed) with
  | Some t => exists text, fromtimestamp_str t = Return text
  | None => True
  end.

(** The last line printed. *)
Definition last_line (w : world) : string := last (stdout w) "".

(** ** A platform for the examples

    Its decoder knows three byte strings: ["tu1"] is the feed of the
    scenario, ["bare"] a feed of one entity without payload, ["late"] a
    feed whose header timestamp is out of range; any other input is
    rejected.  Paths are joined with a slash, and the root of a name is the
    name without a final [.pb]. *)
Definition example_ParseFromString (bytes : string) : outcome FeedMessage.t :=
  if String.eqb bytes "tu1" then Return feed_tu1
  else if String.eqb bytes "bare"
  then Return (FeedMessage.mk (FeedHeader.mk "2.0" None) [entity_bare])
  else if String.eqb bytes "late"
  then Return (FeedMessage.mk (FeedHeader.mk "2.0" (Some (10 ^ 18)%Z))
                              [entity_tu1])
  else Throw (LibraryError "Error parsing message").

Definition example_fromtimestamp (text : string) (t : Z) : outcome string :=
  if (t <? 253402300800)%Z then Return text
  else Throw (LibraryError "year is out of range").

Definition example_splitext_root (p : string) : string :=
  if py_endswith p ".pb"
  then String.substring 0 (String.length p - 3) p
  else p.

Definition example_platform : Platform :=
  {| ParseFromString := example_ParseFromString;
     fromtimestamp_str := example_fromtimestamp "2023-11-14 22:13:20";
     fromtimestamp_isoformat := example_fromtimestamp "2023-11-14T22:13:20";
     to_csv := fun df => String.concat "," (columns df);
     to_json := fun df => ("[" ++ String.concat "," (columns df) ++ "]")%string;
     gettempdir := "/tmp";
     path_join := fun a b => (a ++ "/" ++ b)%string;
     splitext_root := example_splitext_root |}.

(** A world with the three inputs of the decoder in files. *)
Definition example_world : world :=
  mkWorld [("feed.pb", "tu1"); ("bare.pb", "bare"); ("late.pb", "late")] [].

(** The lines [parse_gtfs_realtime] prints about the feed before it looks
    at the entities, when the timestamp of the header, if any, can be
    converted; the exception of the conversion otherwise. *)
Definition header_lines `{Platform} (feed : FeedMessage.t)
  : outcome (list string) :=
  let version_line :=
    ("GTFS Realtime Feed Version: "
     ++ FeedHeader.version (FeedMessage.header feed))%string in
  let count_line :=
    ("Number of entities: " ++ py_str_len (FeedMessage.entity feed))%string in
  match FeedHeader.timestamp (FeedMessage.header feed) with
  | Some t =>
      match fromtimestamp_str t with
      | Return text =>
          Return [version_line; ("Feed Timestamp: " ++ text)%string; count_line]
      | Throw e => Throw e
      end
  | None => Return [version_line; count_line]
  end.

(** The world that the export of a frame leaves. *)
Definition export_world `{Platform} (df : DataFrame) (output_format : string)
  (output_file : option string) (w : world) : world :=
  match output_file with
  | Some path =>
      if py_bool_str path then
        if String.eqb (py_lower output_format) "csv" then
          mkWorld (fs_write path (to_csv df) (files w))
                  (stdout w ++ [("CSV file created at: " ++ path)%string])
        else if String.eqb (py_lower output_format) "json" then
          mkWorld (fs_write path (to_json df) (files w))
                  (stdout w ++ [("JSON file created at: " ++ path)%string])
        else w
      else w
  | None => w
  end.

(** The ["timestamp"] of [feed_info]: the converted timestamp of the
    header, [None] when the header has none, or the exception of the
    conversion. *)
Definition timestamp_text `{Platform} (feed : FeedMessage.t)
  : outcome (option string) :=
  match FeedHeader.timestamp (FeedMessage.header feed) with
  | Some t =>
      match fromtimestamp_isoformat t with
      | Return text => Return (Some text)
      | Throw e => Throw e
      end
  | None => Return None
  end.

(** The three paths of an upload. *)
Definition temp_path_of `{Platform} (filename : string) : string :=
  path_join gettempdir filename.

Definition csv_path_of `{Platform} (filename : string) : string :=
  path_join gettempdir (splitext_root filename ++ ".csv").

Definition json_path_of `{Platform} (filename : string) : string :=
  path_join gettempdir (splitext_root filename ++ ".json").

(** An upload that [upload_file] turns down before its [try] block. *)
Definition turned_down (file : option (string * string)) : Prop :=
  match file with
  | None => True
  | Some (filename, _) => filename = "" \/ py_endswith filename ".pb" = false
  end.

(** ** A platform with feeds that differ in their header

    Its decoder knows four byte strings: ["plain"] is a feed of a trip
    update, an entity without payload and a vehicle, with no header
    timestamp; ["late"] is the same feed with a header timestamp out of
    the range of dates; ["empty"] has no entity and a header timestamp in
    range; ["late-empty"] has no entity and the timestamp out of range. *)
Definition three_entities : list FeedEntity.t :=
  [entity_tu1] ++ entity_bare :: [entity_v1].

Definition feed_plain : FeedMessage.t :=
  FeedMessage.mk (FeedHeader.mk "2.0" None) three_entities.

Definition feed_late : FeedMessage.t :=
  FeedMessage.mk (FeedHeader.mk "2.0" (Some (10 ^ 18)%Z)) three_entities.

Definition feed_empty : FeedMessage.t :=
  FeedMessage.mk (FeedHeader.mk "2.0" (Some 1700000000%Z)) [].

Definition feed_late_empty : FeedMessage.t :=
  FeedMessage.mk (FeedHeader.mk "2.0" (Some (10 ^ 18)%Z)) [].

Definition header_ParseFromString (bytes : string) : outcome FeedMessage.t :=
  if String.eqb bytes "plain" then Return feed_plain
  else if String.eqb bytes "late" then Return feed_late
  else if String.eqb bytes "empty" then Return feed_empty
  else if String.eqb bytes "late-empty" then Return feed_late_empty
  else Throw (LibraryError "Error parsing message").

Definition header_platform : Platform :=
  {| ParseFromString := header_ParseFromString;
     fromtimestamp_str := example_fromtimestamp "2023-11-14 22:13:20";
     fromtimestamp_isoformat := example_fromtimestamp "2023-11-14T22:13:20";
     to_csv := fun df => String.concat "," (columns df);
     to_json := fun df => ("[" ++ String.concat "," (columns df) ++ "]")%string;
     gettempdir := "/tmp";
     path_join := fun a b => (a ++ "/" ++ b)%string;
     splitext_root := example_splitext_root |}.

Definition header_world : world :=
  mkWorld [("plain.pb", "plain"); ("late.pb", "late");
           ("empty.pb", "empty"); ("late-empty.pb", "late-empty")] [].

(** * Properties *)

(** ** Python helpers *)

Lemma py_bool_str_eqb (s : string) :
  py_bool_str s = negb (String.eqb s "").
Proof. destruct s; reflexivity. Qed.

(** A loop that appends one rendered entry per element builds the list of
    the renderings, in order. *)
Lemma fold_left_append_map {A B : Type} (f : A -> B) (l : list A) (init : list B) :
  fold_left (fun acc x => acc ++ [f x]) l init = init ++ map f l.
Proof.
  revert init; induction l as [|x l IH]; intros init; simpl.
  - now rewrite app_nil_r.
  - rewrite IH, <- app_assoc. reflexivity.
Qed.

(** ** Translation selection *)

Section Selection.

Variable loop : list Translation.t -> string -> string.
Hypothesis loop_nil : forall text, loop [] text = text.
Hypothesis loop_cons : forall trans rest text,
  loop (trans :: rest) text =
  if String.eqb (Translation.get_language trans) "he"
     && py_bool_str (Translation.text trans)
  then Translation.text trans
  else loop rest text.

(** The loop leaves the variable untouched unless it meets a non-empty
    Hebrew entry, whose text it then holds. *)
Lemma loop_find (translations : list Translation.t) (text : string) :
  loop translations text =
  match find he_with_text translations with
  | Some tr => Translation.text tr
  | None => text
  end.
Proof.
  induction translations as [|trans rest IH].
  - now rewrite loop_nil.
  - rewrite loop_cons. simpl. unfold he_with_text at 1.
    rewrite py_bool_str_eqb.
    destruct (_ && _); [reflexivity | exact IH].
Qed.

Lemma find_he_text_nonempty (translations : list Translation.t) (tr : Translation.t) :
  find he_with_text translations = Some tr ->
  py_bool_str (Translation.text tr) = true.
Proof.
  intros H. apply find_some in H. destruct H as [_ H].
  unfold he_with_text in H. apply andb_true_iff in H.
  rewrite py_bool_str_eqb. tauto.
Qed.

Lemma selection_preferred (translations : list Translation.t) :
  (let text := loop translations "" in
   if negb (py_bool_str text) && py_bool_list translations
   then match translations with
        | first :: _ => Translation.text first
        | [] => text
        end
   else text) = preferred_text translations.
Proof.
  cbv zeta. rewrite loop_find. unfold preferred_text.
  destruct (find he_with_text translations) as [tr|] eqn:F.
  - now rewrite (find_he_text_nonempty _ _ F).
  - destruct translations; reflexivity.
Qed.

End Selection.

(** What [preferred_text] picks does not depend on where in the list the
    Hebrew entry stands: entries in front of it that are not Hebrew, or
    have no text, are passed over. *)
Lemma preferred_text_first_he (before after : list Translation.t) (tr : Translation.t) :
  Forall (fun x => he_with_text x = false) before ->
  he_with_text tr = true ->
  preferred_text (before ++ tr :: after) = Translation.text tr.
Proof.
  intros Hb Htr. unfold preferred_text.
  assert (F : find he_with_text (before ++ tr :: after) = Some tr).
  { induction Hb as [|x l Hx _ IH]; simpl.
    - now rewrite Htr.
    - now rewrite Hx. }
  now rewrite F.
Qed.

Lemma cli_select_text (ts : TranslatedString.t) :
  gtfs_parser.select_text ts = preferred_text (TranslatedString.translation ts).
Proof.
  unfold gtfs_parser.select_text.
  apply (selection_preferred gtfs_parser.he_loop); reflexivity.
Qed.

Lemma web_select_text (ts : TranslatedString.t) :
  app.select_text ts = preferred_text (TranslatedString.translation ts).
Proof.
  unfold app.select_text.
  apply (selection_preferred app.he_loop); reflexivity.
Qed.

(** C1: in both copies of [process_alert], and for the header and the
    description each on its own list, the column holds the text of the
    first translation tagged ["he"] with a non-empty text; when there is
    none, the text of the first translation of the list; when the list is
    empty, the empty string. *)
Theorem C1_translation_selection (entity : FeedEntity.t) :
  let alert := FeedEntity.get_alert entity in
  let header := TranslatedString.translation (Alert.get_header_text alert) in
  let description :=
    TranslatedString.translation (Alert.get_description_text alert) in
  dict_get "Header Text" (gtfs_parser.process_alert entity)
    = Some (PStr (preferred_text header))
  /\ dict_get "Description Text" (gtfs_parser.process_alert entity)
    = Some (PStr (preferred_text description))
  /\ dict_get "Header Text" (app.process_alert entity)
    = Some (PStr (preferred_text header))
  /\ dict_get "Description Text" (app.process_alert entity)
    = Some (PStr (preferred_text description)).
Proof.
  cbv zeta. unfold gtfs_parser.process_alert, app.process_alert. cbv zeta.
  rewrite ?cli_select_text, ?web_select_text.
  repeat split; reflexivity.
Qed.

(** ** Active periods *)

(** The column joins one entry per active period, each entry printing the
    two bounds as [get_start] and [get_end] return them. *)
Lemma cli_active_periods (entity : FeedEntity.t) :
  dict_get "Active Periods" (gtfs_parser.process_alert entity)
  = Some (PStr (py_join "; "
       (map gtfs_parser.active_period_entry
            (Alert.active_period (FeedEntity.get_alert entity))))).
Proof.
  unfold gtfs_parser.process_alert. cbv zeta. simpl dict_get.
  destruct (Alert.active_period (FeedEntity.get_alert entity)); reflexivity.
Qed.

(** C2: the code at an alert whose one active period has an end, [200], and
    no start.  Both copies of [process_alert] print the absent start as
    ["0"], so the column is ["0-200"] where the property asks for
    ["-200"]. *)
Theorem C2_absent_start_printed_as_zero :
  dict_get "Active Periods" (gtfs_parser.process_alert alert_open_start)
    = Some (PStr "0-200")
  /\ dict_get "Active Periods" (app.process_alert alert_open_start)
    = Some (PStr "0-200")
  /\ "0-200" <> "-200".
Proof. repeat split; try reflexivity. discriminate. Qed.

(** ** Trip updates *)

(** C4: the column [Schedule Relationship] of a trip update is the name of
    the enum value when the field is present and the literal ["SCHEDULED"],
    not the empty string, when it is absent; so in both copies of the
    extractor. *)
Theorem C4_schedule_relationship_default (entity : FeedEntity.t) :
  let trip := TripUpdate.trip (FeedEntity.get_trip_update entity) in
  let expected :=
    match TripDescriptor.schedule_relationship trip with
    | Some v => TripDescriptor.ScheduleRelationship_Name v
    | None => "SCHEDULED"
    end in
  dict_get "Schedule Relationship" (gtfs_parser.process_trip_update entity)
    = Some (PStr expected)
  /\ dict_get "Schedule Relationship" (app.process_trip_update entity)
    = Some (PStr expected)
  /\ expected <> "".
Proof.
  cbv zeta. repeat split; try reflexivity.
  destruct (TripDescriptor.schedule_relationship _) as [[]|]; discriminate.
Qed.

(** ** Vehicle positions *)

(** C6: with a position block, [Latitude] and [Longitude] both hold the
    coordinates, while [Bearing] and [Speed] each hold their value or, when
    their own field is absent, the empty string; without a position block
    all four are the empty string.  [Latitude] and [Longitude] are the
    empty string only in that last case. *)
Theorem C6_position_columns (entity : FeedEntity.t) :
  let vehicle := FeedEntity.get_vehicle entity in
  let r := gtfs_parser.process_vehicle_position entity in
  match VehiclePosition.position vehicle with
  | Some p =>
      dict_get "Latitude" r = Some (PFloat (Position.latitude p))
      /\ dict_get "Longitude" r = Some (PFloat (Position.longitude p))
      /\ dict_get "Bearing" r
         = Some (match Position.bearing p with
                 | Some x => PFloat x
                 | None => PStr ""
                 end)
      /\ dict_get "Speed" r
         = Some (match Position.speed p with
                 | Some x => PFloat x
                 | None => PStr ""
                 end)
  | None =>
      dict_get "Latitude" r = Some (PStr "")
      /\ dict_get "Longitude" r = Some (PStr "")
      /\ dict_get "Bearing" r = Some (PStr "")
      /\ dict_get "Speed" r = Some (PStr "")
  end
  /\ (dict_get "Latitude" r = Some (PStr "")
      <-> VehiclePosition.position vehicle = None)
  /\ (dict_get "Longitude" r = Some (PStr "")
      <-> VehiclePosition.position vehicle = None).
Proof.
  cbv zeta. unfold gtfs_parser.process_vehicle_position. cbv zeta.
  simpl dict_get.
  destruct (VehiclePosition.position (FeedEntity.get_vehicle entity)) as [p|].
  - repeat split; try reflexivity; intros H; discriminate H.
  - repeat split; reflexivity.
Qed.

(** ** Informed entities *)

Lemma cli_informed_entities (entity : FeedEntity.t) :
  dict_get "Informed Entities" (gtfs_parser.process_alert entity)
  = Some (PStr (py_join "; "
       (map gtfs_parser.informed_entry
            (Alert.informed_entity (FeedEntity.get_alert entity))))).
Proof.
  unfold gtfs_parser.process_alert. cbv zeta. simpl dict_get.
  now rewrite fold_left_append_map.
Qed.

Lemma web_informed_entities (entity : FeedEntity.t) :
  dict_get "Informed Entities" (app.process_alert entity)
  = Some (PStr (py_join "; "
       (map app.informed_entry
            (Alert.informed_entity (FeedEntity.get_alert entity))))).
Proof.
  unfold app.process_alert. cbv zeta. simpl dict_get.
  now rewrite fold_left_append_map.
Qed.

(** C10: an informed entity with no route, stop or agency identifier is
    rendered as the empty string and still takes its place among the
    segments joined with ["; "]; in both copies of [process_alert]. *)
Theorem C10_empty_informed_entity_keeps_segment
  (entity : FeedEntity.t) (before after : list EntitySelector.t) :
  Alert.informed_entity (FeedEntity.get_alert entity)
    = before ++ EntitySelector.mk None None None :: after ->
  dict_get "Informed Entities" (gtfs_parser.process_alert entity)
    = Some (PStr (py_join "; "
         (map gtfs_parser.informed_entry before
          ++ "" :: map gtfs_parser.informed_entry after)))
  /\ dict_get "Informed Entities" (app.process_alert entity)
    = Some (PStr (py_join "; "
         (map app.informed_entry before
          ++ "" :: map app.informed_entry after))).
Proof.
  intros H. rewrite cli_informed_entities, web_informed_entities, H.
  rewrite !map_app. split; reflexivity.
Qed.

(** Two informed entities of which only the first has a route identifier
    give ["route_id=R1; "]. *)
Lemma C10_two_informed_entities :
  Alert.informed_entity (FeedEntity.get_alert alert_two_informed)
    = [EntitySelector.mk None (Some "R1") None]
      ++ EntitySelector.mk None None None :: []
  /\ dict_get "Informed Entities" (gtfs_parser.process_alert alert_two_informed)
    = Some (PStr "route_id=R1; ")
  /\ dict_get "Informed Entities" (app.process_alert alert_two_informed)
    = Some (PStr "route_id=R1; ").
Proof.
  split; [reflexivity|].
  apply (C10_empty_informed_entity_keeps_segment alert_two_informed
           [EntitySelector.mk None (Some "R1") None] []).
  reflexivity.
Defined.

(** ** The two copies of the extractors *)

(** C9, as stated, fails: the record of the command-line path has a [Type]
    key that the record of the web path lacks. *)
Lemma C9_records_differ_on_Type :
  ~ dict_equiv (gtfs_parser.process_trip_update entity_tu1)
               (app.process_trip_update entity_tu1)
  /\ ~ dict_equiv (gtfs_parser.process_vehicle_position entity_v1)
                  (app.process_vehicle_position entity_v1)
  /\ ~ dict_equiv (gtfs_parser.process_alert alert_open_start)
                  (app.process_alert alert_open_start).
Proof.
  repeat split; intros H; specialize (H "Type"); discriminate H.
Qed.

(** C9, amended: for every entity and each of the three extractors, the
    record of the command-line path is the record of the web path with one
    more key, [Type], bound to the name of the kind; on every other key the
    two records hold the same value. *)
Theorem C9_extractors_agree_up_to_Type (entity : FeedEntity.t) :
  (dict_remove "Type" (gtfs_parser.process_trip_update entity)
     = app.process_trip_update entity
   /\ dict_get "Type" (gtfs_parser.process_trip_update entity)
     = Some (PStr "trip_update")
   /\ dict_get "Type" (app.process_trip_update entity) = None)
  /\ (dict_remove "Type" (gtfs_parser.process_vehicle_position entity)
        = app.process_vehicle_position entity
      /\ dict_get "Type" (gtfs_parser.process_vehicle_position entity)
        = Some (PStr "vehicle_position")
      /\ dict_get "Type" (app.process_vehicle_position entity) = None)
  /\ (dict_remove "Type" (gtfs_parser.process_alert entity)
        = app.process_alert entity
      /\ dict_get "Type" (gtfs_parser.process_alert entity)
        = Some (PStr "alert")
      /\ dict_get "Type" (app.process_alert entity) = None).
Proof.
  repeat split; reflexivity.
Qed.

(** ** The order on [str] *)

Lemma str_le_refl (a : string) : str_le a a.
Proof.
  unfold str_le, String.leb.
  destruct (String.compare a a) eqn:E; try reflexivity.
  pose proof (String.compare_antisym a a) as H. rewrite E in H. discriminate H.
Qed.

Lemma str_compare_lt (a b : string) :
  String.compare a b = Lt <-> String_as_OT.lt a b.
Proof. apply String_as_OT.cmp_lt. Qed.

Lemma str_le_cases (a b : string) :
  str_le a b <-> a = b \/ String_as_OT.lt a b.
Proof.
  unfold str_le, String.leb. split.
  - destruct (String.compare a b) eqn:E; intros H.
    + left. now apply String.compare_eq_iff.
    + right. now apply str_compare_lt.
    + discriminate H.
  - intros [->|H].
    + apply str_le_refl.
    + apply str_compare_lt in H. now rewrite H.
Qed.

(** The comparison is case-sensitive: upper case sorts before lower case. *)
Lemma str_le_case_sensitive : str_le "B" "a" /\ ~ str_le "a" "B".
Proof. split; [reflexivity | discriminate]. Qed.

Lemma str_le_trans (a b c : string) : str_le a b -> str_le b c -> str_le a c.
Proof.
  rewrite !str_le_cases. intros [->|H1] [->|H2]; auto.
  right. eapply String_as_OT.lt_trans; eassumption.
Qed.

Lemma str_le_antisym (a b : string) : str_le a b -> str_le b a -> a = b.
Proof. apply String.leb_antisym. Qed.

Lemma str_leb_false (a b : string) : String.leb a b = false -> str_le b a.
Proof.
  intros H. destruct (String.leb_total a b) as [H'|H']; [congruence | exact H'].
Qed.

Lemma str_ltb_true (a b : string) : String.ltb a b = true -> str_le a b.
Proof.
  unfold str_le, String.ltb, String.leb.
  destruct (String.compare a b); congruence.
Qed.

Lemma str_ltb_false (a b : string) : String.ltb a b = false -> str_le b a.
Proof.
  unfold str_le, String.ltb, String.leb.
  rewrite (String.compare_antisym b a).
  destruct (String.compare a b); simpl; congruence.
Qed.

(** ** Sorting by a key *)

Lemma Sorted_str_strong (l : list string) :
  Sorted str_le l -> StronglySorted str_le l.
Proof.
  apply Sorted_StronglySorted. intros a b c. apply str_le_trans.
Qed.

Section InsertBy.

Context {A : Type}.
Variable goes_before : string -> string -> bool.
Variable key : A -> string.
Hypothesis goes_before_le :
  forall a b, goes_before a b = true -> str_le a b.
Hypothesis goes_behind_le :
  forall a b, goes_before a b = false -> str_le b a.

Lemma insert_by_perm (x : A) (l : list A) :
  Permutation (insert_by goes_before key x l) (x :: l).
Proof.
  induction l as [|y l IH]; simpl.
  - apply Permutation_refl.
  - destruct (goes_before (key x) (key y)).
    + apply Permutation_refl.
    + eapply perm_trans; [apply perm_skip, IH | apply perm_swap].
Qed.

Lemma insert_by_sorted (x : A) (l : list A) :
  Sorted str_le (map key l) ->
  Sorted str_le (map key (insert_by goes_before key x l)).
Proof.
  induction l as [|y l IH]; simpl; intros HS.
  - repeat constructor.
  - destruct (goes_before (key x) (key y)) eqn:E; simpl.
    + constructor; [exact HS|]. constructor. now apply goes_before_le.
    + inversion HS as [|? ? HS' Hd]; subst.
      constructor; [now apply IH|].
      destruct l as [|z l]; simpl.
      * constructor. now apply goes_behind_le.
      * destruct (goes_before (key x) (key z)); simpl; constructor.
        -- now apply goes_behind_le.
        -- now inversion Hd.
Qed.

Lemma fold_insert_by_perm (l : list A) :
  Permutation (fold_right (insert_by goes_before key) [] l) l.
Proof.
  induction l as [|x l IH]; simpl; [constructor|].
  eapply perm_trans; [apply insert_by_perm | now apply perm_skip].
Qed.

Lemma fold_insert_by_sorted (l : list A) :
  Sorted str_le (map key (fold_right (insert_by goes_before key) [] l)).
Proof.
  induction l as [|x l IH]; simpl; [constructor|].
  now apply insert_by_sorted.
Qed.

End InsertBy.

Lemma stable_sort_perm {A : Type} (key : A -> string) (l : list A) :
  Permutation (stable_sort key l) l.
Proof. apply fold_insert_by_perm. Qed.

Lemma stable_sort_sorted {A : Type} (key : A -> string) (l : list A) :
  Sorted str_le (map key (stable_sort key l)).
Proof.
  apply fold_insert_by_sorted; [intros a b H; exact H | apply str_leb_false].
Qed.

(** Two ascending arrangements of the same elements are equal when no two
    elements share a key. *)
Lemma sorted_perm_unique {A : Type} (key : A -> string) (l1 l2 : list A) :
  Permutation l1 l2 ->
  Sorted str_le (map key l1) ->
  Sorted str_le (map key l2) ->
  NoDup (map key l1) ->
  l1 = l2.
Proof.
  revert l2. induction l1 as [|a t1 IH]; intros l2 HP S1 S2 ND.
  - apply Permutation_nil in HP. now subst.
  - destruct l2 as [|b t2].
    + apply Permutation_sym, Permutation_nil in HP. discriminate HP.
    + apply Sorted_str_strong in S1, S2. simpl in S1, S2.
      inversion S1 as [|? ? S1' F1]; subst.
      inversion S2 as [|? ? S2' F2]; subst.
      inversion ND as [|? ? Hnin ND']; subst.
      assert (Hab : str_le (key a) (key b)).
      { assert (Hin : In b (a :: t1))
          by (eapply Permutation_in; [apply Permutation_sym, HP | now left]).
        destruct Hin as [->|Hin]; [apply str_le_refl|].
        rewrite Forall_forall in F1. apply F1. now apply in_map. }
      assert (Hba : str_le (key b) (key a)).
      { assert (Hin : In a (b :: t2))
          by (eapply Permutation_in; [apply HP | now left]).
        destruct Hin as [->|Hin]; [apply str_le_refl|].
        rewrite Forall_forall in F2. apply F2. now apply in_map. }
      pose proof (str_le_antisym _ _ Hab Hba) as Hk.
      assert (Heq : a = b).
      { assert (Hin : In b (a :: t1))
          by (eapply Permutation_in; [apply Permutation_sym, HP | now left]).
        destruct Hin as [Hin|Hin]; [exact Hin|].
        exfalso. apply Hnin. rewrite Hk. now apply in_map. }
      subst b. f_equal.
      apply IH.
      * eapply Permutation_cons_inv; exact HP.
      * now apply StronglySorted_Sorted.
      * now apply StronglySorted_Sorted.
      * exact ND'.
Qed.

(** ** The two insertion sorts meet the contract *)

Lemma insertion_argsort_perm (ties_last : bool) (ks : list string) :
  Permutation (insertion_argsort ties_last ks) (seq 0 (length ks)).
Proof. apply fold_insert_by_perm. Qed.

Lemma insertion_argsort_sorted (ties_last : bool) (ks : list string) :
  Sorted str_le (map (fun i => nth i ks "") (insertion_argsort ties_last ks)).
Proof.
  apply fold_insert_by_sorted; destruct ties_last.
  - apply str_ltb_true.
  - intros a b H; exact H.
  - apply str_ltb_false.
  - apply str_leb_false.
Qed.

(** The stable member of the contract. *)
Definition stable_argsort : ArgSort :=
  Build_ArgSort (insertion_argsort false)
                (insertion_argsort_perm false)
                (insertion_argsort_sorted false).

(** A member that is not stable: equal keys come out in reverse. *)
Definition reversing_argsort : ArgSort :=
  Build_ArgSort (insertion_argsort true)
                (insertion_argsort_perm true)
                (insertion_argsort_sorted true).

(** ** The frame built from the records *)

Lemma add_keys_keeps (name : string) (keys cols : list string) :
  existsb (String.eqb name) cols = true ->
  existsb (String.eqb name) (add_keys cols keys) = true.
Proof.
  revert cols. induction keys as [|k keys IH]; intros cols H; simpl.
  - exact H.
  - apply IH. destruct (existsb (String.eqb k) cols); [exact H|].
    rewrite existsb_app, H. reflexivity.
Qed.

Lemma union_keys_keeps (name : string) (data : list dict) (cols : list string) :
  existsb (String.eqb name) cols = true ->
  existsb (String.eqb name)
    (fold_left (fun cols d => add_keys cols (dict_keys d)) data cols) = true.
Proof.
  revert cols. induction data as [|d data IH]; intros cols H; simpl.
  - exact H.
  - apply IH. now apply add_keys_keeps.
Qed.

(** The first key of the first record is a column of the frame. *)
Lemma union_keys_first (name : string) (v : pyobj) (d : dict) (data : list dict) :
  existsb (String.eqb name) (union_keys (((name, v) :: d) :: data)) = true.
Proof.
  unfold union_keys. simpl fold_left. apply union_keys_keeps, add_keys_keeps.
  simpl. now rewrite String.eqb_refl.
Qed.

Lemma index_of_present (name : string) (cols : list string) :
  existsb (String.eqb name) cols = true ->
  exists j, index_of name cols = Some j.
Proof.
  induction cols as [|c cols IH]; simpl; [discriminate|].
  destruct (String.eqb name c); simpl.
  - intros _. now exists 0.
  - intros H. destruct (IH H) as [j Hj]. exists (S j). now rewrite Hj.
Qed.

(** The cell of a row in a column is the value the record binds to the
    name of the column. *)
Lemma row_of_cell (name : string) (cols : list string) (j : nat) (d : dict) :
  index_of name cols = Some j ->
  nth j (row_of cols d) NaN
  = match dict_get name d with Some v => Val v | None => NaN end.
Proof.
  revert j. induction cols as [|c cols IH]; simpl; intros j H; [discriminate|].
  destruct (String.eqb name c) eqn:E.
  - injection H as <-. apply String.eqb_eq in E. now subst c.
  - destruct (index_of name cols) as [i|]; [|discriminate].
    injection H as <-. simpl. now apply IH.
Qed.

Lemma str_keys_map {X : Type} (g : X -> cell) (f : X -> string) (l : list X) :
  (forall x, g x = Val (PStr (f x))) ->
  str_keys (map g l) = Some (map f l).
Proof.
  intros H. induction l as [|x l IH]; simpl; [reflexivity|].
  now rewrite H, IH.
Qed.

Lemma str_keys_cell_str (cs : list cell) (ks : list string) :
  str_keys cs = Some ks -> ks = map cell_str cs.
Proof.
  revert ks. induction cs as [|c cs IH]; simpl; intros ks H.
  - now injection H as <-.
  - destruct c as [[s|n|x]|]; try discriminate H.
    destruct (str_keys cs) as [ks'|]; [|discriminate H].
    injection H as <-. simpl. f_equal. now apply IH.
Qed.

(** ** [take] and [sort_values] *)

Lemma map_nth_seq {X : Type} (l : list X) (d : X) :
  map (fun i => nth i l d) (seq 0 (length l)) = l.
Proof.
  induction l as [|x l IH]; simpl; [reflexivity|].
  f_equal. rewrite <- seq_shift, map_map. exact IH.
Qed.

Lemma take_perm (indexer : list nat) (rs : list (list cell)) :
  Permutation indexer (seq 0 (length rs)) ->
  Permutation (take indexer rs) rs.
Proof.
  intros H. unfold take.
  eapply perm_trans; [apply Permutation_map, H|].
  rewrite map_nth_seq. apply Permutation_refl.
Qed.

Lemma nth_nil_cell (j : nat) : nth j (@nil cell) NaN = NaN.
Proof. destruct j; reflexivity. Qed.

Lemma take_keys (j : nat) (indexer : list nat) (rs : list (list cell)) :
  map (fun r => cell_str (nth j r NaN)) (take indexer rs)
  = map (fun i => nth i (map (fun r => cell_str (nth j r NaN)) rs) "") indexer.
Proof.
  unfold take. rewrite map_map. apply map_ext. intros i. symmetry.
  assert (Hd : "" = cell_str (nth j [] NaN)) by now rewrite nth_nil_cell.
  rewrite Hd. apply (map_nth (fun r => cell_str (nth j r NaN))).
Qed.

Section SortValues.

Context `{ArgSort}.

(** On a column of [str] objects [sort_values] returns, without raising, a
    frame with the same columns whose rows are the rows of the argument in
    ascending order of that column. *)
Lemma sort_values_spec (name : string) (df : DataFrame) (j : nat) (ks : list string) :
  index_of name (columns df) = Some j ->
  str_keys (column_values j df) = Some ks ->
  exists df',
    sort_values name df = Ok df'
    /\ columns df' = columns df
    /\ Permutation (rows df') (rows df)
    /\ Sorted str_le (map (fun r => cell_str (row_get df' name r)) (rows df')).
Proof.
  intros Hj Hks. unfold sort_values. rewrite Hj, Hks.
  eexists. split; [reflexivity|]. simpl. split; [reflexivity|].
  pose proof (str_keys_cell_str _ _ Hks) as Eks.
  unfold column_values in Eks. rewrite map_map in Eks.
  split.
  - apply take_perm.
    replace (length (rows df)) with (length ks); [apply argsort_perm|].
    rewrite Eks. apply length_map.
  - unfold row_get. simpl. rewrite Hj.
    rewrite take_keys, <- Eks. apply argsort_sorted.
Qed.

End SortValues.

(** ** The loop over the entities *)

Lemma flat_record_head (entity : FeedEntity.t) :
  exists rest,
    flat_record entity = ("Entity ID", PStr (FeedEntity.id entity)) :: rest.
Proof.
  unfold flat_record.
  destruct (HasField (FeedEntity.trip_update entity));
    [|destruct (HasField (FeedEntity.vehicle entity))];
    eexists; reflexivity.
Qed.

Lemma flat_record_entity_id (entity : FeedEntity.t) :
  dict_get "Entity ID" (flat_record entity) = Some (PStr (FeedEntity.id entity)).
Proof.
  destruct (flat_record_head entity) as [rest ->]. reflexivity.
Qed.

(** One turn of the loop appends the record of the entity when the entity
    is classified and leaves [data] as it is otherwise. *)
Lemma classify_step_spec (data : list dict) (entity : FeedEntity.t) :
  gtfs_parser.classify_step data entity
  = data ++ (if classified entity then [flat_record entity] else []).
Proof.
  unfold gtfs_parser.classify_step, classified, flat_record.
  destruct (HasField (FeedEntity.trip_update entity)); [reflexivity|].
  destruct (HasField (FeedEntity.vehicle entity)); [reflexivity|].
  destruct (HasField (FeedEntity.alert entity)); [reflexivity|].
  simpl. now rewrite app_nil_r.
Qed.

Lemma collect_fold (entities : list FeedEntity.t) (init : list dict) :
  fold_left gtfs_parser.classify_step entities init
  = init ++ map flat_record (filter classified entities).
Proof.
  revert init. induction entities as [|e es IH]; intros init; simpl.
  - now rewrite app_nil_r.
  - rewrite IH, classify_step_spec, <- app_assoc.
    destruct (classified e); reflexivity.
Qed.

(** The loop collects one record per classified entity, in feed order. *)
Lemma collect_data_spec (feed : FeedMessage.t) :
  gtfs_parser.collect_data feed
  = map flat_record (filter classified (FeedMessage.entity feed)).
Proof. unfold gtfs_parser.collect_data. now rewrite collect_fold. Qed.

(** ** The frame of the records of a feed *)

Lemma pd_DataFrame_columns (data : list dict) :
  columns (pd_DataFrame data) = union_keys data.
Proof. reflexivity. Qed.

Lemma pd_DataFrame_rows (data : list dict) :
  rows (pd_DataFrame data) = map (row_of (union_keys data)) data.
Proof. reflexivity. Qed.

Lemma entity_id_of_columns (df df' : DataFrame) (r : list cell) :
  columns df = columns df' -> entity_id_of df r = entity_id_of df' r.
Proof. intros E. unfold entity_id_of, row_get. now rewrite E. Qed.

Lemma records_have_entity_id_column (e : FeedEntity.t) (es : list FeedEntity.t) :
  exists j,
    index_of "Entity ID" (columns (pd_DataFrame (map flat_record (e :: es))))
    = Some j.
Proof.
  apply index_of_present. simpl map.
  destruct (flat_record_head e) as [rest ->].
  apply union_keys_first.
Qed.

Lemma records_entity_id_cell (cols : list string) (j : nat) (e : FeedEntity.t) :
  index_of "Entity ID" cols = Some j ->
  nth j (row_of cols (flat_record e)) NaN = Val (PStr (FeedEntity.id e)).
Proof.
  intros Hj. now rewrite (row_of_cell _ _ _ _ Hj), flat_record_entity_id.
Qed.

(** The [Entity ID] cells of the frame are the identifiers of the entities
    the records come from. *)
Lemma records_entity_ids (es : list FeedEntity.t) :
  let df0 := pd_DataFrame (map flat_record es) in
  map (entity_id_of df0) (rows df0) = map FeedEntity.id es.
Proof.
  cbv zeta. destruct es as [|e es]; [reflexivity|].
  destruct (records_have_entity_id_column e es) as [j Hj].
  unfold entity_id_of, row_get. rewrite Hj.
  rewrite pd_DataFrame_columns in Hj. rewrite pd_DataFrame_rows, !map_map.
  apply map_ext. intros x.
  now rewrite (records_entity_id_cell _ _ _ Hj).
Qed.

Section Parse.

Context `{ArgSort}.

(** [parse_gtfs_realtime] returns, without raising, a frame with the
    columns of the frame of the records, whose rows are those of that frame
    in ascending order of [Entity ID]. *)
Lemma parse_spec (feed : FeedMessage.t) :
  let es := filter classified (FeedMessage.entity feed) in
  let df0 := pd_DataFrame (map flat_record es) in
  exists df,
    gtfs_parser.parse_gtfs_realtime feed = Ok df
    /\ columns df = columns df0
    /\ Permutation (rows df) (rows df0)
    /\ Sorted str_le (map (entity_id_of df) (rows df)).
Proof.
  cbv zeta. unfold gtfs_parser.parse_gtfs_realtime. cbv zeta.
  rewrite collect_data_spec.
  destruct (filter classified (FeedMessage.entity feed)) as [|e es].
  - exists empty_DataFrame. repeat split; constructor.
  - destruct (records_have_entity_id_column e es) as [j Hj].
    assert (Hcol : has_column "Entity ID"
                     (pd_DataFrame (map flat_record (e :: es))) = true).
    { unfold has_column. simpl map.
      destruct (flat_record_head e) as [rest ->]. apply union_keys_first. }
    change (py_bool_list (map flat_record (e :: es))) with true. cbv iota.
    rewrite Hcol.
    apply (sort_values_spec "Entity ID" _ j (map FeedEntity.id (e :: es)) Hj).
    unfold column_values.
    rewrite pd_DataFrame_columns in Hj. rewrite pd_DataFrame_rows, !map_map.
    apply str_keys_map. intros x. now apply records_entity_id_cell.
Qed.


End Parse.

(** ** The assembled output *)

(** C3, as stated, fails: the sort is the default one of [sort_values],
    which promises ascending order and no more.  On a feed whose entities
    all share one identifier a stable sort keeps the feed order; with a
    sort of the contract that is not stable the output is in another
    order. *)
Lemma C3_order_of_equal_ids_not_kept :
  exists df,
    @gtfs_parser.parse_gtfs_realtime reversing_argsort feed_shared_id = Ok df
    /\ stable_sort (entity_id_of df)
         (rows (pd_DataFrame
                  (map flat_record
                       (filter classified (FeedMessage.entity feed_shared_id)))))
       = map (row_of (columns df))
             (map flat_record (FeedMessage.entity feed_shared_id))
    /\ rows df
       <> stable_sort (entity_id_of df)
            (rows (pd_DataFrame
                     (map flat_record
                          (filter classified (FeedMessage.entity feed_shared_id))))).
Proof.
  eexists. split; [vm_compute; reflexivity|].
  split; [vm_compute; reflexivity|].
  vm_compute. discriminate.
Qed.

(** C3, amended: for every feed the output has exactly one row per
    classified entity, the rows being those of the frame of their records,
    and it is in ascending order of [Entity ID] under the case-sensitive
    comparison of strings.  When no two classified entities share an
    identifier this order is the one a stable sort gives; how rows with
    equal identifiers are ordered among themselves is left to the sort. *)
Theorem C3_one_row_each_ascending_entity_id `{ArgSort} (feed : FeedMessage.t) :
  let es := filter classified (FeedMessage.entity feed) in
  let df0 := pd_DataFrame (map flat_record es) in
  exists df,
    gtfs_parser.parse_gtfs_realtime feed = Ok df
    /\ columns df = columns df0
    /\ Permutation (rows df) (rows df0)
    /\ length (rows df) = length es
    /\ Sorted str_le (map (entity_id_of df) (rows df))
    /\ (NoDup (map FeedEntity.id es) ->
        rows df = stable_sort (entity_id_of df0) (rows df0)).
Proof.
  cbv zeta. destruct (parse_spec feed) as (df & H1 & H2 & H3 & H4).
  exists df. repeat split; try assumption.
  - rewrite (Permutation_length H3), pd_DataFrame_rows, !length_map.
    reflexivity.
  - intros ND.
    set (df0 := pd_DataFrame _) in *.
    assert (Hkey : map (entity_id_of df0) (rows df)
                   = map (entity_id_of df) (rows df)).
    { apply map_ext. intros r. symmetry. now apply entity_id_of_columns. }
    apply (sorted_perm_unique (entity_id_of df0)).
    + eapply perm_trans; [exact H3|].
      apply Permutation_sym, stable_sort_perm.
    + now rewrite Hkey.
    + apply stable_sort_sorted.
    + eapply Permutation_NoDup;
        [apply Permutation_map, Permutation_sym, H3|].
      unfold df0. now rewrite records_entity_ids.
Qed.

(** The amended property at a feed of three entities with distinct
    identifiers, one of them without payload. *)
Lemma C3_three_entities :
  exists df,
    @gtfs_parser.parse_gtfs_realtime stable_argsort
      (FeedMessage.mk (FeedHeader.mk "2.0" None)
                      [entity_v1; entity_bare; entity_tu1]) = Ok df
    /\ length (rows df) = 2
    /\ map (entity_id_of df) (rows df) = ["tu1"; "v1"]
    /\ rows df
       = stable_sort
           (entity_id_of (pd_DataFrame (map flat_record [entity_v1; entity_tu1])))
           (rows (pd_DataFrame (map flat_record [entity_v1; entity_tu1]))).
Proof.
  destruct (@C3_one_row_each_ascending_entity_id stable_argsort
              (FeedMessage.mk (FeedHeader.mk "2.0" None)
                              [entity_v1; entity_bare; entity_tu1]))
    as (df & H1 & _ & _ & H4 & _ & H6).
  exists df. split; [exact H1|]. split; [exact H4|].
  split.
  - vm_compute in H1. injection H1 as <-. reflexivity.
  - apply H6. repeat constructor; simpl; intuition discriminate.
Defined.

(** C5, as stated, fails: on the scenario's feed the output has seven
    columns, [Type] among them, and is not the frame of the six-column
    record. *)
Lemma C5_output_has_a_Type_column :
  exists df,
    @gtfs_parser.parse_gtfs_realtime stable_argsort feed_tu1 = Ok df
    /\ columns df
       = ["Entity ID"; "Type"; "Trip ID"; "Route ID";
          "Schedule Relationship"; "Stop Updates"; "Timestamp"]
    /\ length (columns df) <> 6
    /\ df <> pd_DataFrame [six_column_record].
Proof.
  eexists. split; [vm_compute; reflexivity|].
  split; [reflexivity|]. split; vm_compute; discriminate.
Qed.

(** C5, amended: on the scenario's feed the output is exactly one record,
    with the six columns of the scenario holding the values it lists, and
    one column more, [Type], holding ["trip_update"]; [Timestamp] is empty
    although the header has a timestamp.  The extractor of the web path
    gives the six-column record itself. *)
Theorem C5_scenario_record `{ArgSort} :
  gtfs_parser.parse_gtfs_realtime feed_tu1
    = Ok (pd_DataFrame [seven_column_record])
  /\ to_records (pd_DataFrame [seven_column_record])
     = [[("Entity ID", Val (PStr "tu1"));
         ("Type", Val (PStr "trip_update"));
         ("Trip ID", Val (PStr "T1"));
         ("Route ID", Val (PStr ""));
         ("Schedule Relationship", Val (PStr "SCHEDULED"));
         ("Stop Updates", Val (PStr "S1:100-"));
         ("Timestamp", Val (PStr ""))]]
  /\ app.process_trip_update entity_tu1 = six_column_record.
Proof.
  split; [|split; reflexivity].
  destruct (parse_spec feed_tu1) as (df & H1 & H2 & H3 & _).
  rewrite H1. f_equal.
  change (filter classified (FeedMessage.entity feed_tu1))
    with [entity_tu1] in *.
  change (map flat_record [entity_tu1]) with [seven_column_record] in *.
  destruct df as [cols rs]. simpl in H2, H3.
  apply Permutation_sym, Permutation_length_1_inv in H3.
  subst. reflexivity.
Qed.


(** The flattening and sorting of a feed without entities, or none of
    whose entities is classified, gives the empty frame. *)
Lemma frame_of_nothing_classified `{ArgSort} (feed : FeedMessage.t) :
  FeedMessage.entity feed = []
  \/ Forall (fun e => classified e = false) (FeedMessage.entity feed) ->
  gtfs_parser.parse_gtfs_realtime feed = Ok empty_DataFrame
  /\ to_records empty_DataFrame = [].
Proof.
  intros Hno. split; [|reflexivity].
  assert (Hf : filter classified (FeedMessage.entity feed) = []).
  { destruct Hno as [->|Hall]; [reflexivity|].
    induction Hall as [|e es He _ IH]; simpl; [reflexivity|].
    now rewrite He. }
  unfold gtfs_parser.parse_gtfs_realtime. cbv zeta.
  now rewrite collect_data_spec, Hf.
Qed.

(** * Further properties of the extractors *)

(** ** Joined columns *)

Lemma append_cons_nonempty (a b : string) (c : ascii) :
  (a ++ String c b)%string <> "".
Proof. destruct a; discriminate. Qed.

Lemma append_empty (a b : string) :
  (a ++ b)%string = "" -> a = "" /\ b = "".
Proof. destruct a; simpl; [auto | discriminate]. Qed.

(** A join is empty only for an empty list and for the list of one empty
    string, whatever the non-empty separator. *)
Lemma py_join_empty_iff (c : ascii) (sep : string) (l : list string) :
  py_join (String c sep) l = "" <-> l = [] \/ l = [""].
Proof.
  unfold py_join. split.
  - destruct l as [|x [|y l]]; simpl; intros H.
    + now left.
    + right. now subst.
    + exfalso. apply append_empty in H. destruct H as [_ H]. discriminate H.
  - intros [->| ->]; reflexivity.
Qed.

Lemma py_join_nonempty_entries (c : ascii) (sep : string) (l : list string) :
  Forall (fun x => x <> "") l ->
  (py_join (String c sep) l = "" <-> l = []).
Proof.
  intros Hall. rewrite py_join_empty_iff. split.
  - intros [H|H]; [exact H|]. subst. inversion Hall as [|? ? Hx _]; subst.
    now contradiction Hx.
  - now left.
Qed.

Lemma cli_stop_update_entry_nonempty (su : StopTimeUpdate.t) :
  gtfs_parser.stop_update_entry su <> "".
Proof.
  unfold gtfs_parser.stop_update_entry. cbv zeta.
  apply append_cons_nonempty.
Qed.

Lemma web_stop_update_entry_nonempty (su : StopTimeUpdate.t) :
  app.stop_update_entry su <> "".
Proof.
  unfold app.stop_update_entry. cbv zeta.
  apply append_cons_nonempty.
Qed.

(** X1: the column [Stop Updates] joins, with ["; "], one entry
    [stop:arrival-departure] per stop-time update, in feed order, and it is
    the empty string exactly when the trip update has no stop-time update;
    in both copies of [process_trip_update]. *)
Theorem X1_stop_updates_one_entry_each (entity : FeedEntity.t) :
  let updates :=
    TripUpdate.stop_time_update (FeedEntity.get_trip_update entity) in
  dict_get "Stop Updates" (gtfs_parser.process_trip_update entity)
    = Some (PStr (py_join "; " (map gtfs_parser.stop_update_entry updates)))
  /\ dict_get "Stop Updates" (app.process_trip_update entity)
    = Some (PStr (py_join "; " (map app.stop_update_entry updates)))
  /\ (dict_get "Stop Updates" (gtfs_parser.process_trip_update entity)
        = Some (PStr "") <-> updates = [])
  /\ (dict_get "Stop Updates" (app.process_trip_update entity)
        = Some (PStr "") <-> updates = []).
Proof.
  cbv zeta.
  assert (Hc : dict_get "Stop Updates" (gtfs_parser.process_trip_update entity)
    = Some (PStr (py_join "; " (map gtfs_parser.stop_update_entry
        (TripUpdate.stop_time_update (FeedEntity.get_trip_update entity)))))).
  { unfold gtfs_parser.process_trip_update. cbv zeta. simpl dict_get.
    now rewrite fold_left_append_map. }
  assert (Hw : dict_get "Stop Updates" (app.process_trip_update entity)
    = Some (PStr (py_join "; " (map app.stop_update_entry
        (TripUpdate.stop_time_update (FeedEntity.get_trip_update entity)))))).
  { unfold app.process_trip_update. cbv zeta. simpl dict_get.
    now rewrite fold_left_append_map. }
  rewrite Hc, Hw. repeat split; try reflexivity.
  - intros H. injection H as H.
    apply py_join_nonempty_entries in H.
    + now apply map_eq_nil in H.
    + apply Forall_forall. intros x Hx. apply in_map_iff in Hx.
      destruct Hx as (su & <- & _). apply cli_stop_update_entry_nonempty.
  - intros ->. reflexivity.
  - intros H. injection H as H.
    apply py_join_nonempty_entries in H.
    + now apply map_eq_nil in H.
    + apply Forall_forall. intros x Hx. apply in_map_iff in Hx.
      destruct Hx as (su & <- & _). apply web_stop_update_entry_nonempty.
  - intros ->. reflexivity.
Qed.

Lemma web_active_periods (entity : FeedEntity.t) :
  dict_get "Active Periods" (app.process_alert entity)
  = Some (PStr (py_join "; "
       (map app.active_period_entry
            (Alert.active_period (FeedEntity.get_alert entity))))).
Proof.
  unfold app.process_alert. cbv zeta. simpl dict_get.
  destruct (Alert.active_period (FeedEntity.get_alert entity)); reflexivity.
Qed.

(** X2: the column [Active Periods] is the empty string exactly when the
    alert has no active period: every period, also one without bounds,
    contributes an entry that contains at least the dash; in both copies of
    [process_alert]. *)
Theorem X2_active_periods_empty_iff_none (entity : FeedEntity.t) :
  let periods := Alert.active_period (FeedEntity.get_alert entity) in
  (dict_get "Active Periods" (gtfs_parser.process_alert entity)
     = Some (PStr "") <-> periods = [])
  /\ (dict_get "Active Periods" (app.process_alert entity)
        = Some (PStr "") <-> periods = []).
Proof.
  cbv zeta. rewrite cli_active_periods, web_active_periods. split; split.
  - intros H. injection H as H.
    apply py_join_nonempty_entries in H.
    + now apply map_eq_nil in H.
    + apply Forall_forall. intros x Hx. apply in_map_iff in Hx.
      destruct Hx as (ap & <- & _).
      unfold gtfs_parser.active_period_entry. apply append_cons_nonempty.
  - intros ->. reflexivity.
  - intros H. injection H as H.
    apply py_join_nonempty_entries in H.
    + now apply map_eq_nil in H.
    + apply Forall_forall. intros x Hx. apply in_map_iff in Hx.
      destruct Hx as (ap & <- & _).
      unfold app.active_period_entry. apply append_cons_nonempty.
  - intros ->. reflexivity.
Qed.

Lemma cli_informed_entry_empty_iff (ie : EntitySelector.t) :
  gtfs_parser.informed_entry ie = ""
  <-> ie = EntitySelector.mk None None None.
Proof.
  destruct ie as [[a|] [r|] [s|]]; unfold gtfs_parser.informed_entry;
    simpl; split; intros H; try discriminate H; reflexivity.
Qed.

Lemma web_informed_entry_empty_iff (ie : EntitySelector.t) :
  app.informed_entry ie = ""
  <-> ie = EntitySelector.mk None None None.
Proof.
  destruct ie as [[a|] [r|] [s|]]; unfold app.informed_entry;
    simpl; split; intros H; try discriminate H; reflexivity.
Qed.

(** X3: the column [Informed Entities] is the empty string in exactly two
    cases: the alert has no informed entity, or it has a single informed
    entity without route, stop and agency identifier.  The column does not
    tell the two apart; in both copies of [process_alert]. *)
Theorem X3_informed_entities_empty_iff (entity : FeedEntity.t) :
  let selectors := Alert.informed_entity (FeedEntity.get_alert entity) in
  (dict_get "Informed Entities" (gtfs_parser.process_alert entity)
     = Some (PStr "")
   <-> selectors = [] \/ selectors = [EntitySelector.mk None None None])
  /\ (dict_get "Informed Entities" (app.process_alert entity)
        = Some (PStr "")
      <-> selectors = [] \/ selectors = [EntitySelector.mk None None None]).
Proof.
  cbv zeta. rewrite cli_informed_entities, web_informed_entities.
  split; split.
  - intros H. injection H as H. apply py_join_empty_iff in H.
    destruct H as [H|H].
    + left. now apply map_eq_nil in H.
    + right.
      destruct (Alert.informed_entity (FeedEntity.get_alert entity))
        as [|ie [|ie' l]]; try discriminate H.
      injection H as H. apply cli_informed_entry_empty_iff in H. now subst.
  - intros [-> | ->]; reflexivity.
  - intros H. injection H as H. apply py_join_empty_iff in H.
    destruct H as [H|H].
    + left. now apply map_eq_nil in H.
    + right.
      destruct (Alert.informed_entity (FeedEntity.get_alert entity))
        as [|ie [|ie' l]]; try discriminate H.
      injection H as H. apply web_informed_entry_empty_iff in H. now subst.
  - intros [-> | ->]; reflexivity.
Qed.

(** * The loops and the frames *)

(** ** The frame of records that start with their identifier *)

Section SortedFrame.

Context `{ArgSort}.
Context {E : Type}.
Variable record : E -> dict.
Variable ident : E -> string.
Hypothesis record_head :
  forall e, exists rest, record e = ("Entity ID", PStr (ident e)) :: rest.

(** [sorted_frame] never raises on such records: it returns the frame of
    the records with its rows taken in the order the sort gives for the
    identifiers. *)
Lemma sorted_frame_spec (es : list E) :
  sorted_frame (map record es)
  = Ok (mkDataFrame
          (union_keys (map record es))
          (take (argsort (map ident es))
                (map (row_of (union_keys (map record es))) (map record es)))).
Proof.
  unfold sorted_frame. cbv zeta.
  destruct es as [|e es].
  - simpl. f_equal. f_equal.
    pose proof (argsort_perm []) as P. simpl in P.
    apply Permutation_sym, Permutation_nil in P. now rewrite P.
  - assert (Hcol : existsb (String.eqb "Entity ID")
                     (union_keys (map record (e :: es))) = true).
    { simpl map. destruct (record_head e) as [rest ->].
      apply union_keys_first. }
    unfold has_column. rewrite pd_DataFrame_columns, Hcol.
    destruct (index_of_present _ _ Hcol) as [j Hj].
    unfold sort_values. rewrite pd_DataFrame_columns, Hj.
    unfold column_values. rewrite pd_DataFrame_rows, !map_map.
    rewrite (str_keys_map _ ident); [reflexivity|].
    intros x. rewrite (row_of_cell _ _ _ _ Hj).
    destruct (record_head x) as [rest ->]. reflexivity.
Qed.

End SortedFrame.

(** ** The dispatch *)

Lemma classified_cli_kind (e : FeedEntity.t) :
  classified e = true <-> cli_kind e <> None.
Proof.
  unfold classified, cli_kind.
  destruct (HasField (FeedEntity.trip_update e)),
           (HasField (FeedEntity.vehicle e)),
           (HasField (FeedEntity.alert e)); simpl; split; congruence.
Qed.

Lemma classified_web_kind (e : FeedEntity.t) :
  classified e = true <-> web_kind e <> None.
Proof.
  unfold classified, web_kind.
  destruct (HasField (FeedEntity.trip_update e)),
           (HasField (FeedEntity.vehicle e)),
           (HasField (FeedEntity.alert e)); simpl; split; congruence.
Qed.

Lemma flat_record_cli_extract (e : FeedEntity.t) (k : kind) :
  cli_kind e = Some k -> flat_record e = cli_extract k e.
Proof.
  unfold cli_kind, flat_record.
  destruct (HasField (FeedEntity.trip_update e)),
           (HasField (FeedEntity.vehicle e)),
           (HasField (FeedEntity.alert e)); intros K;
    try discriminate K; injection K as <-; reflexivity.
Qed.

Lemma cli_extract_keys (k : kind) (e : FeedEntity.t) :
  dict_keys (cli_extract k e) = cli_columns k.
Proof. destruct k; reflexivity. Qed.

Lemma web_extract_keys (k : kind) (e : FeedEntity.t) :
  dict_keys (web_extract k e) = web_columns k.
Proof. destruct k; reflexivity. Qed.

Lemma cli_extract_drop_Type (k : kind) (e : FeedEntity.t) :
  dict_remove "Type" (cli_extract k e) = web_extract k e.
Proof. destruct k; reflexivity. Qed.

(** The record the web loop builds for a classified entity. *)
Lemma web_classify_step_spec (data : list dict)
  (entities : list webapp.entity_entry) (e : FeedEntity.t) :
  webapp.classify_step (data, entities) e
  = match web_kind e with
    | Some k =>
        (data ++ [web_extract k e],
         entities ++ [webapp.mk_entry (FeedEntity.id e) (web_type_name k)
                                      (web_extract k e)])
    | None => (data, entities)
    end.
Proof.
  unfold webapp.classify_step, web_kind.
  destruct (HasField (FeedEntity.alert e)); [reflexivity|].
  destruct (HasField (FeedEntity.trip_update e)); [reflexivity|].
  destruct (HasField (FeedEntity.vehicle e)); reflexivity.
Qed.

Lemma fold_left_cons {A B : Type} (f : A -> B -> A) (x : B) (l : list B) (a : A) :
  fold_left f (x :: l) a = fold_left f l (f a x).
Proof. reflexivity. Qed.

Lemma web_collect_fold (es : list FeedEntity.t) (data : list dict)
  (entities : list webapp.entity_entry) :
  fold_left webapp.classify_step es (data, entities)
  = (data ++ map webapp.entry_data (flat_map web_entry es),
     entities ++ flat_map web_entry es).
Proof.
  revert data entities. induction es as [|e es IH]; intros data entities.
  - simpl. now rewrite !app_nil_r.
  - rewrite fold_left_cons, web_classify_step_spec.
    change (flat_map web_entry (e :: es))
      with (web_entry e ++ flat_map web_entry es).
    destruct (web_kind e) as [k|] eqn:K.
    + assert (Hw : web_entry e
                   = [webapp.mk_entry (FeedEntity.id e) (web_type_name k)
                                      (web_extract k e)])
        by (unfold web_entry; now rewrite K).
      rewrite IH, Hw. simpl. now rewrite <- !app_assoc.
    + assert (Hw : web_entry e = [])
        by (unfold web_entry; now rewrite K).
      rewrite IH, Hw. reflexivity.
Qed.

Lemma web_record_head (e : FeedEntity.t) :
  exists rest, web_record e = ("Entity ID", PStr (FeedEntity.id e)) :: rest.
Proof.
  unfold web_record.
  destruct (HasField (FeedEntity.alert e));
    [|destruct (HasField (FeedEntity.trip_update e))];
    eexists; reflexivity.
Qed.

Lemma web_record_web_extract (e : FeedEntity.t) (k : kind) :
  web_kind e = Some k -> web_record e = web_extract k e.
Proof.
  unfold web_kind, web_record.
  destruct (HasField (FeedEntity.alert e)),
           (HasField (FeedEntity.trip_update e)),
           (HasField (FeedEntity.vehicle e)); intros K;
    try discriminate K; injection K as <-; reflexivity.
Qed.

Lemma web_entries_data (es : list FeedEntity.t) :
  map webapp.entry_data (flat_map web_entry es)
  = map web_record (filter classified es).
Proof.
  induction es as [|e es IH]; [reflexivity|].
  simpl. rewrite map_app, IH. unfold web_entry.
  destruct (web_kind e) as [k|] eqn:K.
  - assert (C : classified e = true)
      by (apply classified_web_kind; congruence).
    rewrite C. simpl. now rewrite (web_record_web_extract e k K).
  - assert (C : classified e = false).
    { destruct (classified e) eqn:C; [|reflexivity].
      apply classified_web_kind in C. congruence. }
    now rewrite C.
Qed.

(** The web loop collects one record, and one entry, per classified
    entity, in feed order. *)
Lemma web_collect_spec (feed : FeedMessage.t) :
  webapp.collect feed
  = (map web_record (filter classified (FeedMessage.entity feed)),
     flat_map web_entry (FeedMessage.entity feed)).
Proof.
  unfold webapp.collect. rewrite web_collect_fold. simpl.
  now rewrite web_entries_data.
Qed.

(** ** The cells of the output *)

Lemma row_of_nth (cols : list string) (d : dict) (j : nat) (name : string) :
  nth_error cols j = Some name ->
  nth j (row_of cols d) NaN
  = match dict_get name d with Some v => Val v | None => NaN end.
Proof.
  revert j. induction cols as [|c cols IH]; intros [|j] Hj;
    try discriminate Hj; simpl in *.
  - now injection Hj as ->.
  - now apply IH.
Qed.

Lemma row_of_length (cols : list string) (d : dict) :
  length (row_of cols d) = length cols.
Proof. apply length_map. Qed.

Lemma parse_is_sorted_frame `{ArgSort} (feed : FeedMessage.t) :
  gtfs_parser.parse_gtfs_realtime feed
  = sorted_frame (gtfs_parser.collect_data feed).
Proof.
  unfold gtfs_parser.parse_gtfs_realtime, sorted_frame. cbv zeta.
  destruct (gtfs_parser.collect_data feed); reflexivity.
Qed.

(** A cell of a row: missing when the record has no binding for the
    column, the string itself when the record binds the column to a
    string. *)
Lemma row_of_str_or_missing (cols : list string) (d : dict) (j : nat)
  (name : string) :
  nth_error cols j = Some name ->
  (dict_get name d = None -> nth j (row_of cols d) NaN = NaN)
  /\ (forall s, dict_get name d = Some (PStr s) ->
                nth j (row_of cols d) NaN = Val (PStr s)).
Proof.
  intros Hj. rewrite (row_of_nth cols d j name Hj).
  split; [intros ->; reflexivity | intros s ->; reflexivity].
Qed.

(** X4: every row of the output of the command-line path comes from one
    classified entity of the feed and has a cell for every column of the
    frame.  Where the record of that entity has no key of the column's
    name (as for the columns of another kind of entity in a mixed feed)
    the cell is the missing-value marker; where the record binds the name
    to a string the cell holds that string.  Nothing is said of the cells
    of numbers, which pandas may convert with the type of their column. *)
Theorem X4_str_cells_and_missing_cells `{ArgSort} (feed : FeedMessage.t) :
  exists df,
    gtfs_parser.parse_gtfs_realtime feed = Ok df
    /\ forall r, In r (rows df) ->
       exists e k,
         In e (FeedMessage.entity feed)
         /\ cli_kind e = Some k
         /\ length r = length (columns df)
         /\ forall j name,
              nth_error (columns df) j = Some name ->
              (dict_get name (cli_extract k e) = None -> nth j r NaN = NaN)
              /\ (forall s,
                    dict_get name (cli_extract k e) = Some (PStr s) ->
                    nth j r NaN = Val (PStr s)).
Proof.
  destruct (parse_spec feed) as (df & H1 & H2 & H3 & _).
  exists df. split; [exact H1|]. intros r Hr.
  apply (Permutation_in _ H3) in Hr.
  rewrite pd_DataFrame_rows in Hr. rewrite pd_DataFrame_columns in H2.
  apply in_map_iff in Hr. destruct Hr as (d & <- & Hd).
  apply in_map_iff in Hd. destruct Hd as (e & <- & He).
  apply filter_In in He. destruct He as [He Hc].
  destruct (cli_kind e) as [k|] eqn:K;
    [|apply classified_cli_kind in Hc; congruence].
  exists e, k. rewrite <- H2, (flat_record_cli_extract e k K).
  split; [exact He|]. split; [exact K|].
  split; [apply row_of_length|].
  intros j name Hj. now apply row_of_str_or_missing.
Qed.

(** In a feed with a trip update and an alert, the row of the alert has no
    value in the column [Trip ID]. *)
Lemma mixed_feed_has_missing_cells :
  exists df,
    @gtfs_parser.parse_gtfs_realtime stable_argsort feed_mixed = Ok df
    /\ map (fun r => (entity_id_of df r, row_get df "Trip ID" r)) (rows df)
       = [("a1", NaN); ("tu1", Val (PStr "T1"))].
Proof. eexists. split; vm_compute; reflexivity. Qed.

Lemma add_keys_absorb (cols keys : list string) :
  (forall x, In x keys -> existsb (String.eqb x) cols = true) ->
  add_keys cols keys = cols.
Proof.
  induction keys as [|k keys IH]; intros Hin; simpl; [reflexivity|].
  rewrite (Hin k (or_introl eq_refl)). apply IH.
  intros x Hx. apply Hin. now right.
Qed.

Lemma existsb_eqb_In (x : string) (l : list string) :
  In x l -> existsb (String.eqb x) l = true.
Proof.
  intros Hx. apply existsb_exists. exists x. split; [exact Hx|].
  apply String.eqb_refl.
Qed.

(** Records that all have the keys [keys] give a frame with the columns
    [keys]. *)
Lemma union_keys_same (keys : list string) (d : dict) (data : list dict) :
  add_keys [] keys = keys ->
  Forall (fun x => dict_keys x = keys) (d :: data) ->
  union_keys (d :: data) = keys.
Proof.
  intros Hk Hall. apply Forall_cons_iff in Hall. destruct Hall as [Hd Hrest].
  unfold union_keys. simpl fold_left. rewrite Hd, Hk.
  clear Hd. induction Hrest as [|x l Hx _ IH]; [reflexivity|].
  simpl. rewrite Hx, add_keys_absorb; [exact IH|].
  intros y Hy. now apply existsb_eqb_In.
Qed.

Lemma dict_get_of_key (c : string) (d : dict) :
  In c (dict_keys d) -> exists v, dict_get c d = Some v.
Proof.
  induction d as [|[k v] d IH]; simpl; [contradiction|].
  intros [<-|Hin].
  - exists v. now rewrite String.eqb_refl.
  - destruct (String.eqb c k); [now exists v | now apply IH].
Qed.

(** X5: when all classified entities of a feed go to the same extractor,
    the output of the command-line path has exactly the columns of that
    kind of record, [Type] included, in the order of the keys of the
    record, and the record behind every row binds every column: no cell is
    missing for want of a key, and a cell whose column the record binds to
    a string holds that string.  (A cell of a number is not described: a
    float NaN read from the feed is also pandas' missing value.) *)
Theorem X5_one_kind_gives_its_columns `{ArgSort} (feed : FeedMessage.t) (k : kind) :
  Forall (fun e => cli_kind e = Some k \/ cli_kind e = None)
         (FeedMessage.entity feed) ->
  Exists (fun e => cli_kind e = Some k) (FeedMessage.entity feed) ->
  exists df,
    gtfs_parser.parse_gtfs_realtime feed = Ok df
    /\ columns df = cli_columns k
    /\ forall r, In r (rows df) ->
       exists e,
         In e (FeedMessage.entity feed)
         /\ cli_kind e = Some k
         /\ length r = length (cli_columns k)
         /\ forall j name,
              nth_error (cli_columns k) j = Some name ->
              (exists v, dict_get name (cli_extract k e) = Some v)
              /\ (forall s,
                    dict_get name (cli_extract k e) = Some (PStr s) ->
                    nth j r NaN = Val (PStr s)).
Proof.
  intros Hall Hex.
  destruct (parse_spec feed) as (df & H1 & H2 & H3 & _).
  exists df. split; [exact H1|].
  set (es := filter classified (FeedMessage.entity feed)) in *.
  assert (Hes : Forall (fun e => cli_kind e = Some k) es).
  { apply Forall_forall. intros e He. apply filter_In in He.
    destruct He as [He Hc]. rewrite Forall_forall in Hall.
    destruct (Hall e He) as [K|K]; [exact K|].
    apply classified_cli_kind in Hc. congruence. }
  assert (Hne : exists e es', es = e :: es').
  { apply Exists_exists in Hex. destruct Hex as (e & He & K).
    assert (Hin : In e es).
    { apply filter_In. split; [exact He|].
      apply classified_cli_kind. congruence. }
    destruct es as [|e0 es']; [contradiction | now exists e0, es']. }
  destruct Hne as (e0 & es' & Ees).
  assert (Hcols : union_keys (map flat_record es) = cli_columns k).
  { assert (Hkeys : Forall (fun d => dict_keys d = cli_columns k)
                           (map flat_record es)).
    { apply Forall_forall. intros d Hd. apply in_map_iff in Hd.
      destruct Hd as (e & <- & He). rewrite Forall_forall in Hes.
      rewrite (flat_record_cli_extract e k (Hes e He)).
      apply cli_extract_keys. }
    rewrite Ees in Hkeys |- *. simpl map in Hkeys |- *.
    apply union_keys_same; [destruct k; reflexivity | exact Hkeys]. }
  rewrite pd_DataFrame_columns in H2. rewrite H2. split; [exact Hcols|].
  intros r Hr.
  apply (Permutation_in _ H3) in Hr. rewrite pd_DataFrame_rows in Hr.
  apply in_map_iff in Hr. destruct Hr as (d & <- & Hd).
  apply in_map_iff in Hd. destruct Hd as (e & <- & He).
  rewrite Forall_forall in Hes. pose proof (Hes e He) as K.
  exists e. split; [apply filter_In in He; tauto|]. split; [exact K|].
  rewrite Hcols, (flat_record_cli_extract e k K).
  split; [apply row_of_length|].
  intros j name Hj. split.
  - apply dict_get_of_key. rewrite cli_extract_keys.
    eapply nth_error_In. exact Hj.
  - apply (row_of_str_or_missing _ _ _ _ Hj).
Qed.

Lemma X5_trip_updates_only :
  exists df,
    @gtfs_parser.parse_gtfs_realtime stable_argsort
       (FeedMessage.mk (FeedHeader.mk "2.0" None) [entity_tu1; entity_bare])
    = Ok df
    /\ columns df = cli_columns TripUpdateKind
    /\ forall r, In r (rows df) ->
       exists e,
         In e [entity_tu1; entity_bare]
         /\ cli_kind e = Some TripUpdateKind
         /\ length r = length (cli_columns TripUpdateKind)
         /\ forall j name,
              nth_error (cli_columns TripUpdateKind) j = Some name ->
              (exists v, dict_get name (cli_extract TripUpdateKind e) = Some v)
              /\ (forall s,
                    dict_get name (cli_extract TripUpdateKind e)
                    = Some (PStr s) ->
                    nth j r NaN = Val (PStr s)).
Proof.
  apply (@X5_one_kind_gives_its_columns stable_argsort
           (FeedMessage.mk (FeedHeader.mk "2.0" None) [entity_tu1; entity_bare])
           TripUpdateKind).
  - constructor; [left; reflexivity|].
    constructor; [right; reflexivity | constructor].
  - apply Exists_cons_hd. reflexivity.
Defined.

(** ** The order of the tests in the two loops *)

(** X6: each loop adds at most one record per entity.  The loop of the
    command-line tool tests for a trip update, then a vehicle, then an
    alert; the loop of the web handler tests for an alert first.  The two
    run the same extractor exactly on the entities that have no alert or
    have nothing but an alert; on an entity with an alert and another
    payload the command-line tool records the trip update or the vehicle,
    and the web handler the alert. *)
Theorem X6_dispatch_order (entity : FeedEntity.t) (data : list dict)
  (entities : list webapp.entity_entry) :
  gtfs_parser.classify_step data entity
    = data ++ match cli_kind entity with
              | Some k => [cli_extract k entity]
              | None => []
              end
  /\ webapp.classify_step (data, entities) entity
     = match web_kind entity with
       | Some k =>
           (data ++ [web_extract k entity],
            entities ++ [webapp.mk_entry (FeedEntity.id entity)
                                         (web_type_name k)
                                         (web_extract k entity)])
       | None => (data, entities)
       end
  /\ (cli_kind entity = web_kind entity
      <-> FeedEntity.alert entity = None
          \/ (FeedEntity.trip_update entity = None
              /\ FeedEntity.vehicle entity = None))
  /\ (cli_kind entity = web_kind entity
      \/ (web_kind entity = Some AlertKind
          /\ (cli_kind entity = Some TripUpdateKind
              \/ cli_kind entity = Some VehicleKind))).
Proof.
  split; [|split; [apply web_classify_step_spec|]].
  - rewrite classify_step_spec.
    destruct (cli_kind entity) as [k|] eqn:K.
    + assert (C : classified entity = true)
        by (apply classified_cli_kind; congruence).
      now rewrite C, (flat_record_cli_extract entity k K).
    + destruct (classified entity) eqn:C; [|reflexivity].
      apply classified_cli_kind in C. congruence.
  - unfold cli_kind, web_kind.
    destruct (FeedEntity.trip_update entity),
             (FeedEntity.vehicle entity),
             (FeedEntity.alert entity); simpl;
      (split; [split; [intros Hk | intros [Ha | [Ht Hv]]] |]);
      try discriminate; try reflexivity;
      try (now left); try (now right);
      try (right; split; [reflexivity|]; (now left) || (now right)).
Qed.

(** An entity with a trip update and an alert: the command-line tool gives
    it a trip-update record, the web handler an alert record. *)
Lemma two_payloads_two_records :
  gtfs_parser.classify_step [] entity_two_payloads
    = [gtfs_parser.process_trip_update entity_two_payloads]
  /\ fst (webapp.classify_step ([], []) entity_two_payloads)
     = [app.process_alert entity_two_payloads].
Proof. split; reflexivity. Qed.

(** ** The counts of the upload response *)

Lemma count_type_app (type : string) (a b : list webapp.entity_entry) :
  webapp.count_type type (a ++ b)
  = webapp.count_type type a + webapp.count_type type b.
Proof.
  unfold webapp.count_type. now rewrite filter_app, map_app, list_sum_app.
Qed.

Lemma count_type_entries (es : list FeedEntity.t) (k : kind) :
  webapp.count_type (web_type_name k) (flat_map web_entry es)
  = length (filter (fun e => match web_kind e, k with
                             | Some AlertKind, AlertKind => true
                             | Some TripUpdateKind, TripUpdateKind => true
                             | Some VehicleKind, VehicleKind => true
                             | _, _ => false
                             end) es).
Proof.
  induction es as [|e es IH]; [reflexivity|].
  simpl flat_map. rewrite count_type_app, IH. simpl filter.
  unfold web_entry.
  destruct (web_kind e) as [[]|], k; reflexivity.
Qed.

(** The counts of the entries of the web loop. *)
Lemma web_counts_spec (feed : FeedMessage.t) :
  let es := FeedMessage.entity feed in
  let data := fst (webapp.collect feed) in
  let entities := snd (webapp.collect feed) in
  webapp.count_type "alert" entities
    = length (filter (fun e => HasField (FeedEntity.alert e)) es)
  /\ webapp.count_type "trip_update" entities
     = length (filter (fun e => negb (HasField (FeedEntity.alert e))
                                && HasField (FeedEntity.trip_update e)) es)
  /\ webapp.count_type "vehicle" entities
     = length (filter (fun e => negb (HasField (FeedEntity.alert e))
                                && negb (HasField (FeedEntity.trip_update e))
                                && HasField (FeedEntity.vehicle e)) es)
  /\ webapp.count_type "alert" entities
     + webapp.count_type "trip_update" entities
     + webapp.count_type "vehicle" entities = length data
  /\ length data = length (filter classified es)
  /\ length data <= length es
  /\ (length data = length es <-> Forall (fun e => classified e = true) es).
Proof.
  cbv zeta. rewrite web_collect_spec. simpl fst. simpl snd.
  set (es := FeedMessage.entity feed).
  assert (Ha : webapp.count_type "alert" (flat_map web_entry es)
               = length (filter (fun e => HasField (FeedEntity.alert e)) es)).
  { pose proof (count_type_entries es AlertKind) as P.
    simpl web_type_name in P. rewrite P. f_equal.
    apply filter_ext. intros e. unfold web_kind.
    destruct (HasField (FeedEntity.alert e)),
             (HasField (FeedEntity.trip_update e)),
             (HasField (FeedEntity.vehicle e)); reflexivity. }
  assert (Ht : webapp.count_type "trip_update" (flat_map web_entry es)
               = length (filter (fun e => negb (HasField (FeedEntity.alert e))
                            && HasField (FeedEntity.trip_update e)) es)).
  { pose proof (count_type_entries es TripUpdateKind) as P.
    simpl web_type_name in P. rewrite P. f_equal.
    apply filter_ext. intros e. unfold web_kind.
    destruct (HasField (FeedEntity.alert e)),
             (HasField (FeedEntity.trip_update e)),
             (HasField (FeedEntity.vehicle e)); reflexivity. }
  assert (Hv : webapp.count_type "vehicle" (flat_map web_entry es)
               = length (filter (fun e => negb (HasField (FeedEntity.alert e))
                            && negb (HasField (FeedEntity.trip_update e))
                            && HasField (FeedEntity.vehicle e)) es)).
  { pose proof (count_type_entries es VehicleKind) as P.
    simpl web_type_name in P. rewrite P. f_equal.
    apply filter_ext. intros e. unfold web_kind.
    destruct (HasField (FeedEntity.alert e)),
             (HasField (FeedEntity.trip_update e)),
             (HasField (FeedEntity.vehicle e)); reflexivity. }
  rewrite Ha, Ht, Hv, length_map.
  repeat split.
  - clear. induction es as [|e es IH]; [reflexivity|].
    simpl. unfold classified at 1.
    destruct (HasField (FeedEntity.alert e)),
             (HasField (FeedEntity.trip_update e)),
             (HasField (FeedEntity.vehicle e)); simpl; lia.
  - apply filter_length_le.
  - clear. induction es as [|e es IH]; simpl; intros Hl; [constructor|].
    pose proof (filter_length_le classified es) as Hle.
    destruct (classified e) eqn:C; simpl in Hl; [|lia].
    constructor; [exact C | apply IH; lia].
  - clear. induction 1 as [|e es He _ IH]; simpl; [reflexivity|].
    rewrite He. simpl. now rewrite IH.
Qed.


(** ** The table of the web handler and the table of the command-line tool *)

Lemma dict_keys_remove_Type (d : dict) :
  dict_keys (dict_remove "Type" d) = filter not_Type (dict_keys d).
Proof.
  induction d as [|[k v] d IH]; [reflexivity|].
  cbn -[String.eqb]. unfold not_Type at 1.
  destruct (String.eqb "Type" k); cbn -[String.eqb];
    [exact IH | f_equal; exact IH].
Qed.

Lemma dict_get_remove_Type (c : string) (d : dict) :
  not_Type c = true ->
  dict_get c (dict_remove "Type" d) = dict_get c d.
Proof.
  intros Hc. induction d as [|[k v] d IH]; [reflexivity|].
  cbn -[String.eqb]. destruct (String.eqb "Type" k) eqn:E.
  - apply String.eqb_eq in E. subst k.
    unfold not_Type in Hc. rewrite String.eqb_sym in Hc.
    destruct (String.eqb c "Type"); [discriminate Hc | exact IH].
  - cbn -[String.eqb]. now rewrite IH.
Qed.

Lemma existsb_filter_not_Type (k : string) (cols : list string) :
  not_Type k = true ->
  existsb (String.eqb k) (filter not_Type cols) = existsb (String.eqb k) cols.
Proof.
  intros Hk. induction cols as [|c cols IH]; [reflexivity|].
  cbn -[String.eqb not_Type]. destruct (not_Type c) eqn:Hc;
    cbn -[String.eqb not_Type].
  - now rewrite IH.
  - rewrite IH. destruct (String.eqb k c) eqn:E; [|reflexivity].
    apply String.eqb_eq in E. subst c. congruence.
Qed.

Lemma add_keys_filter_not_Type (keys cols : list string) :
  add_keys (filter not_Type cols) (filter not_Type keys)
  = filter not_Type (add_keys cols keys).
Proof.
  revert cols. induction keys as [|k keys IH]; intros cols; [reflexivity|].
  cbn -[String.eqb not_Type]. destruct (not_Type k) eqn:Hk.
  - cbn -[String.eqb not_Type].
    rewrite (existsb_filter_not_Type k cols Hk).
    destruct (existsb (String.eqb k) cols).
    + apply IH.
    + rewrite <- IH, filter_app. cbn -[String.eqb not_Type].
      now rewrite Hk.
  - destruct (existsb (String.eqb k) cols).
    + apply IH.
    + rewrite <- IH, filter_app. cbn -[String.eqb not_Type].
      now rewrite Hk, app_nil_r.
Qed.

Lemma union_keys_remove_Type (data : list dict) :
  union_keys (map (dict_remove "Type") data)
  = filter not_Type (union_keys data).
Proof.
  unfold union_keys.
  assert (G : forall cols,
             fold_left (fun cols d => add_keys cols (dict_keys d))
                       (map (dict_remove "Type") data) (filter not_Type cols)
             = filter not_Type
                 (fold_left (fun cols d => add_keys cols (dict_keys d))
                            data cols)).
  { induction data as [|d data IH]; intros cols; [reflexivity|].
    cbn [map fold_left].
    rewrite dict_keys_remove_Type, add_keys_filter_not_Type. apply IH. }
  apply (G []).
Qed.

(** The record of a row, without its [Type] binding, is the record of the
    row of the record without its [Type] key. *)
Lemma row_record_remove_Type (cols : list string) (d : dict) :
  combine (filter not_Type cols)
          (row_of (filter not_Type cols) (dict_remove "Type" d))
  = filter (fun kv => not_Type (fst kv)) (combine cols (row_of cols d)).
Proof.
  induction cols as [|c cols IH]; [reflexivity|].
  cbn -[String.eqb not_Type dict_get dict_remove].
  destruct (not_Type c) eqn:Hc; cbn -[String.eqb not_Type dict_get dict_remove].
  - rewrite (dict_get_remove_Type c d Hc). f_equal. exact IH.
  - exact IH.
Qed.

Lemma nth_map_default {X Y : Type} (g : X -> Y) (l : list X) (i : nat) (d : Y) :
  nth i (map g l) d
  = match nth_error l i with Some x => g x | None => d end.
Proof.
  revert i. induction l as [|x l IH]; intros [|i]; simpl; auto.
Qed.

(** X7: on a feed in which no entity has an alert together with another
    payload, the table the web handler writes is the table of the
    command-line tool without the column [Type]: the other columns in the
    same order, the rows in the same order, the same cells. *)
Theorem X7_web_table_is_cli_table_without_Type `{ArgSort} (feed : FeedMessage.t) :
  Forall (fun e => cli_kind e = web_kind e) (FeedMessage.entity feed) ->
  exists cli_df web_df,
    gtfs_parser.parse_gtfs_realtime feed = Ok cli_df
    /\ sorted_frame (fst (webapp.collect feed)) = Ok web_df
    /\ columns web_df = filter not_Type (columns cli_df)
    /\ to_records web_df
       = map (filter (fun kv => not_Type (fst kv))) (to_records cli_df).
Proof.
  intros Hsame.
  set (es := filter classified (FeedMessage.entity feed)).
  assert (Hrec : map web_record es
                 = map (dict_remove "Type") (map flat_record es)).
  { rewrite map_map. apply map_ext_in. intros e He.
    apply filter_In in He. destruct He as [He Hc].
    rewrite Forall_forall in Hsame. specialize (Hsame e He).
    destruct (cli_kind e) as [k|] eqn:K;
      [|apply classified_cli_kind in Hc; congruence].
    rewrite (flat_record_cli_extract e k K), cli_extract_drop_Type.
    apply web_record_web_extract. now symmetry. }
  eexists. eexists.
  split.
  { rewrite parse_is_sorted_frame, collect_data_spec.
    apply (sorted_frame_spec flat_record FeedEntity.id flat_record_head). }
  split.
  { rewrite web_collect_spec. simpl fst.
    apply (sorted_frame_spec web_record FeedEntity.id web_record_head). }
  fold es. rewrite Hrec.
  split.
  - simpl. apply union_keys_remove_Type.
  - unfold to_records, take. simpl columns. simpl rows.
    rewrite union_keys_remove_Type, !map_map.
    apply map_ext. intros i.
    rewrite !nth_map_default.
    destruct (nth_error es i) as [e|].
    + apply row_record_remove_Type.
    + now rewrite !combine_nil.
Qed.

Lemma X7_trip_update_and_vehicle :
  exists cli_df web_df,
    @gtfs_parser.parse_gtfs_realtime stable_argsort
       (FeedMessage.mk (FeedHeader.mk "2.0" None) [entity_v1; entity_tu1])
    = Ok cli_df
    /\ @sorted_frame stable_argsort
         (fst (webapp.collect
                 (FeedMessage.mk (FeedHeader.mk "2.0" None)
                                 [entity_v1; entity_tu1])))
       = Ok web_df
    /\ columns web_df = filter not_Type (columns cli_df)
    /\ to_records web_df
       = map (filter (fun kv => not_Type (fst kv))) (to_records cli_df).
Proof.
  apply (@X7_web_table_is_cli_table_without_Type stable_argsort
           (FeedMessage.mk (FeedHeader.mk "2.0" None) [entity_v1; entity_tu1])).
  repeat constructor.
Defined.

(** * The command-line tool as a whole *)

Ltac run_io :=
  unfold bind_io, ret, throw, lift, lift_sort, print, path_exists,
    read_file, write_file, remove_file, try_except.

Lemma fs_exists_read (path : string) (fs : filesystem) :
  fs_exists path fs = false <-> fs_read path fs = None.
Proof.
  unfold fs_exists. destruct (fs_read path fs); split; congruence.
Qed.

(** X9: when the input file does not exist, [parse_gtfs_realtime] raises
    [FileNotFoundError] with the message [File not found: <path>] before
    it prints or writes anything, and [main] lets the exception through. *)
Theorem X9_missing_input_file `{ArgSort} `{Platform}
  (pb_file_path output_format : string) (output_file : option string)
  (w : world) :
  fs_exists pb_file_path (files w) = false ->
  gtfs_parser_main.parse_gtfs_realtime pb_file_path output_format output_file w
    = (Throw (FileNotFoundError ("File not found: " ++ pb_file_path)), w)
  /\ gtfs_parser_main.main pb_file_path output_format output_file w
    = (Throw (FileNotFoundError ("File not found: " ++ pb_file_path)), w).
Proof.
  intros Hno.
  assert (P : forall out,
    gtfs_parser_main.parse_gtfs_realtime pb_file_path output_format out w
    = (Throw (FileNotFoundError ("File not found: " ++ pb_file_path)), w)).
  { intros out. unfold gtfs_parser_main.parse_gtfs_realtime. run_io.
    now rewrite Hno. }
  split; [apply P|].
  unfold gtfs_parser_main.main. cbv zeta. unfold bind_io. now rewrite P.
Qed.

Lemma X9_no_such_file :
  @gtfs_parser_main.parse_gtfs_realtime stable_argsort example_platform
     "nowhere.pb" "csv" (Some "out.csv") example_world
    = (Throw (FileNotFoundError "File not found: nowhere.pb"), example_world)
  /\ @gtfs_parser_main.main stable_argsort example_platform
       "nowhere.pb" "csv" (Some "out.csv") example_world
    = (Throw (FileNotFoundError "File not found: nowhere.pb"), example_world).
Proof.
  apply (@X9_missing_input_file stable_argsort example_platform
           "nowhere.pb" "csv" (Some "out.csv") example_world).
  reflexivity.
Defined.

Lemma fs_read_exists (path bytes : string) (fs : filesystem) :
  fs_read path fs = Some bytes -> fs_exists path fs = true.
Proof. unfold fs_exists. now intros ->. Qed.

(** ** Running statements *)

Lemma bind_return {A B : Type} (m : io A) (k : A -> io B) (w w' : world) (a : A) :
  m w = (Return a, w') -> bind_io m k w = k a w'.
Proof. unfold bind_io. now intros ->. Qed.

Lemma bind_throw {A B : Type} (m : io A) (k : A -> io B) (w w' : world)
  (e : raised) :
  m w = (Throw e, w') -> bind_io m k w = (Throw e, w').
Proof. unfold bind_io. now intros ->. Qed.

Lemma read_file_found (path bytes : string) (w : world) :
  fs_read path (files w) = Some bytes -> read_file path w = (Return bytes, w).
Proof. unfold read_file. now intros ->. Qed.

Lemma print_run (line : string) (w : world) :
  print line w = (Return tt, mkWorld (files w) (stdout w ++ [line])).
Proof. reflexivity. Qed.

Lemma write_file_run (path bytes : string) (w : world) :
  write_file path bytes w
  = (Return tt, mkWorld (fs_write path bytes (files w)) (stdout w)).
Proof. reflexivity. Qed.

Lemma lift_run {A : Type} (o : outcome A) (w : world) : lift o w = (o, w).
Proof. reflexivity. Qed.

Lemma ret_run {A : Type} (a : A) (w : world) : ret a w = (Return a, w).
Proof. reflexivity. Qed.

(** ** The run of [parse_gtfs_realtime] *)

Section WholeParse.

Context `{ArgSort} `{Platform}.

(** The export raises nothing. *)
Lemma export_run (df : DataFrame) (output_format : string)
  (output_file : option string) (w : world) :
  gtfs_parser_main.export df output_format output_file w
  = (Return tt, export_world df output_format output_file w).
Proof.
  unfold gtfs_parser_main.export, export_world.
  destruct output_file as [path|]; [|reflexivity].
  destruct (py_bool_str path); [|reflexivity].
  destruct (String.eqb (py_lower output_format) "csv"); [reflexivity|].
  destruct (String.eqb (py_lower output_format) "json"); reflexivity.
Qed.

(** The outcome of the function and the world it leaves, case by case:
    a missing input, an input the decoder rejects, a header timestamp that
    cannot be converted (the version line is printed by then), no record,
    and at least one record. *)
Lemma parse_whole_run (pb_file_path output_format : string)
  (output_file : option string) (w : world) :
  gtfs_parser_main.parse_gtfs_realtime pb_file_path output_format output_file w
  = match fs_read pb_file_path (files w) with
    | None =>
        (Throw (FileNotFoundError ("File not found: " ++ pb_file_path)), w)
    | Some bytes =>
        match ParseFromString bytes with
        | Throw e => (Throw e, w)
        | Return feed =>
            match header_lines feed with
            | Throw e =>
                (Throw e,
                 mkWorld (files w)
                   (stdout w
                    ++ [("GTFS Realtime Feed Version: "
                         ++ FeedHeader.version (FeedMessage.header feed))%string]))
            | Return lines =>
                let w1 := mkWorld (files w) (stdout w ++ lines) in
                match gtfs_parser.collect_data feed with
                | [] =>
                    (Return empty_DataFrame,
                     mkWorld (files w)
                       (stdout w1 ++ ["No entities were processed."]))
                | data =>
                    match sorted_frame data with
                    | Raise e => (Throw (SortError e), w1)
                    | Ok df =>
                        (Return df,
                         export_world df output_format output_file w1)
                    end
                end
            end
        end
    end.
Proof.
  unfold gtfs_parser_main.parse_gtfs_realtime.
  destruct (fs_read pb_file_path (files w)) as [bytes|] eqn:Hread.
  2:{ apply fs_exists_read in Hread. unfold bind_io, path_exists.
      now rewrite Hread. }
  assert (Hex : path_exists pb_file_path w = (Return true, w)).
  { unfold path_exists. now rewrite (fs_read_exists _ _ _ Hread). }
  rewrite (bind_return _ _ _ _ _ Hex). cbn [negb].
  rewrite (bind_return _ _ _ _ _ (read_file_found _ _ _ Hread)).
  destruct (ParseFromString bytes) as [feed|e] eqn:Hdec.
  2:{ apply bind_throw. apply lift_run. }
  rewrite (bind_return _ _ _ _ _ (lift_run _ _)).
  rewrite (bind_return _ _ _ _ _ (print_run _ _)).
  unfold header_lines. cbv zeta.
  assert (Hrest : forall w1,
    (if py_bool_list (gtfs_parser.collect_data feed)
     then
       df <- lift_sort (sorted_frame (gtfs_parser.collect_data feed)) ;;
       gtfs_parser_main.export df output_format output_file ;; ret df
     else print "No entities were processed." ;; ret empty_DataFrame) w1
    = match gtfs_parser.collect_data feed with
      | [] =>
          (Return empty_DataFrame,
           mkWorld (files w1) (stdout w1 ++ ["No entities were processed."]))
      | _ :: _ =>
          match sorted_frame (gtfs_parser.collect_data feed) with
          | Raise e => (Throw (SortError e), w1)
          | Ok df =>
              (Return df, export_world df output_format output_file w1)
          end
      end).
  { intros w1. destruct (gtfs_parser.collect_data feed) as [|d data].
    - reflexivity.
    - cbn [py_bool_list].
      destruct (sorted_frame (d :: data)) as [df|e]; [|reflexivity].
      unfold lift_sort.
      rewrite (bind_return _ _ _ _ _ (ret_run _ _)).
      now rewrite (bind_return _ _ _ _ _ (export_run _ _ _ _)). }
  destruct (FeedHeader.timestamp (FeedMessage.header feed)) as [t|].
  - destruct (fromtimestamp_str t) as [text|e] eqn:Ht.
    + erewrite bind_return.
      2:{ erewrite bind_return; [apply print_run | apply lift_run]. }
      rewrite (bind_return _ _ _ _ _ (print_run _ _)).
      rewrite Hrest. cbv zeta. cbn [files stdout].
      rewrite <- !app_assoc. cbn [app].
      destruct (gtfs_parser.collect_data feed); reflexivity.
    + apply bind_throw. apply bind_throw. apply lift_run.
  - rewrite (bind_return _ _ _ _ _ (ret_run _ _)).
    rewrite (bind_return _ _ _ _ _ (print_run _ _)).
    rewrite Hrest. cbv zeta. cbn [files stdout].
    rewrite <- !app_assoc. cbn [app].
    destruct (gtfs_parser.collect_data feed); reflexivity.
Qed.

End WholeParse.

Lemma header_printable_lines `{Platform} (feed : FeedMessage.t) :
  header_printable feed -> exists lines, header_lines feed = Return lines.
Proof.
  unfold header_printable, header_lines. cbv zeta.
  destruct (FeedHeader.timestamp (FeedMessage.header feed)) as [t|].
  - intros [text ->]. eexists. reflexivity.
  - intros _. eexists. reflexivity.
Qed.

Lemma export_world_stdout `{Platform} (df : DataFrame) (output_format : string)
  (output_file : option string) (w : world) :
  exists printed,
    stdout (export_world df output_format output_file w) = stdout w ++ printed.
Proof.
  unfold export_world.
  destruct output_file as [path|]; [|exists []; now rewrite app_nil_r].
  destruct (py_bool_str path); [|exists []; now rewrite app_nil_r].
  destruct (String.eqb (py_lower output_format) "csv");
    [eexists; reflexivity|].
  destruct (String.eqb (py_lower output_format) "json");
    [eexists; reflexivity|].
  exists []. now rewrite app_nil_r.
Qed.

(** X10: when [parse_gtfs_realtime] returns a frame, the input file was
    there, the decoder accepted its bytes, and the frame is the one the
    flattening and sorting of the decoded feed gives, whatever the format
    and the output file; what was on the console before is still there,
    in front of what the call printed. *)
Theorem X10_returns_the_table_of_the_decoded_feed `{ArgSort} `{Platform}
  (pb_file_path output_format : string) (output_file : option string)
  (w w' : world) (df : DataFrame) :
  gtfs_parser_main.parse_gtfs_realtime pb_file_path output_format output_file w
    = (Return df, w') ->
  exists bytes feed printed,
    fs_read pb_file_path (files w) = Some bytes
    /\ ParseFromString bytes = Return feed
    /\ gtfs_parser.parse_gtfs_realtime feed = Ok df
    /\ stdout w' = stdout w ++ printed.
Proof.
  rewrite parse_whole_run.
  destruct (fs_read pb_file_path (files w)) as [bytes|]; [|discriminate].
  destruct (ParseFromString bytes) as [feed|e] eqn:Hdec; [|discriminate].
  destruct (header_lines feed) as [lines|e]; [|discriminate].
  cbv zeta.
  destruct (gtfs_parser.collect_data feed) as [|d data] eqn:Hdata.
  - intros E. injection E as <- <-.
    exists bytes, feed. eexists.
    split; [reflexivity|]. split; [exact Hdec|]. split.
    + now rewrite parse_is_sorted_frame, Hdata.
    + cbn [stdout]. now rewrite <- app_assoc.
  - destruct (sorted_frame (d :: data)) as [df0|e] eqn:Hsort; [|discriminate].
    intros E. injection E as <- <-.
    destruct (export_world_stdout df0 output_format output_file
                (mkWorld (files w) (stdout w ++ lines))) as [printed Hp].
    exists bytes, feed, (lines ++ printed).
    split; [reflexivity|]. split; [exact Hdec|]. split.
    + now rewrite parse_is_sorted_frame, Hdata.
    + rewrite Hp. cbn [stdout]. now rewrite app_assoc.
Qed.

Lemma X10_scenario_file :
  exists bytes feed printed,
    fs_read "feed.pb" (files example_world) = Some bytes
    /\ @ParseFromString example_platform bytes = Return feed
    /\ @gtfs_parser.parse_gtfs_realtime stable_argsort feed
       = Ok (pd_DataFrame [seven_column_record])
    /\ stdout (snd (@gtfs_parser_main.parse_gtfs_realtime stable_argsort
                      example_platform "feed.pb" "csv" None example_world))
       = stdout example_world ++ printed.
Proof.
  apply (@X10_returns_the_table_of_the_decoded_feed stable_argsort
           example_platform "feed.pb" "csv" None example_world).
  vm_compute. reflexivity.
Defined.

(** X11: whatever its arguments and its outcome, [parse_gtfs_realtime]
    leaves the files as they were or with one file written, the one named
    by [output_file]; it removes no file and writes nowhere else. *)
Theorem X11_writes_the_output_file_only `{ArgSort} `{Platform}
  (pb_file_path output_format : string) (output_file : option string)
  (w : world) :
  let w' :=
    snd (gtfs_parser_main.parse_gtfs_realtime
           pb_file_path output_format output_file w) in
  files w' = files w
  \/ exists path bytes,
       output_file = Some path
       /\ path <> ""
       /\ files w' = fs_write path bytes (files w).
Proof.
  cbv zeta. rewrite parse_whole_run.
  destruct (fs_read pb_file_path (files w)) as [bytes|]; [|now left].
  destruct (ParseFromString bytes) as [feed|e]; [|now left].
  destruct (header_lines feed) as [lines|e]; [|now left].
  cbv zeta.
  destruct (gtfs_parser.collect_data feed) as [|d data]; [now left|].
  destruct (sorted_frame (d :: data)) as [df|e]; [|now left].
  cbn [snd]. unfold export_world.
  destruct output_file as [path|]; [|now left].
  destruct path as [|c path]; [now left|]. cbn [py_bool_str].
  destruct (String.eqb (py_lower output_format) "csv").
  - right. exists (String c path). eexists.
      split; [reflexivity|]. split; [discriminate | reflexivity].
  - destruct (String.eqb (py_lower output_format) "json").
    + right. exists (String c path). eexists.
      split; [reflexivity|]. split; [discriminate | reflexivity].
    + now left.
Qed.

Lemma collect_data_none_classified (feed : FeedMessage.t) :
  Forall (fun e => classified e = false) (FeedMessage.entity feed) ->
  gtfs_parser.collect_data feed = [].
Proof.
  intros Hall. rewrite collect_data_spec.
  induction Hall as [|e es He _ IH]; simpl; [reflexivity|].
  now rewrite He.
Qed.


(** X12: on an input file that exists and decodes to a feed whose header
    has no timestamp or one that [datetime.fromtimestamp] converts, and in
    which no entity has a payload, the command-line function creates no
    file, even when an output file is named: it returns the empty frame,
    leaves the files as they were, and the last thing it prints is [No
    entities were processed.] *)
Theorem X12_nothing_classified_nothing_written `{ArgSort} `{Platform}
  (pb_file_path output_format : string) (output_file : option string)
  (w : world) (bytes : string) (feed : FeedMessage.t) :
  fs_read pb_file_path (files w) = Some bytes ->
  ParseFromString bytes = Return feed ->
  header_printable feed ->
  Forall (fun e => classified e = false) (FeedMessage.entity feed) ->
  exists w',
    gtfs_parser_main.parse_gtfs_realtime
      pb_file_path output_format output_file w = (Return empty_DataFrame, w')
    /\ files w' = files w
    /\ last_line w' = "No entities were processed.".
Proof.
  intros Hread Hdec Hprint Hnone.
  rewrite parse_whole_run, Hread, Hdec.
  destruct (header_printable_lines feed Hprint) as [lines ->].
  cbv zeta. rewrite (collect_data_none_classified feed Hnone).
  eexists. split; [reflexivity|]. split; [reflexivity|].
  unfold last_line. cbn [stdout]. apply last_last.
Qed.

Lemma X12_bare_feed :
  exists w',
    @gtfs_parser_main.parse_gtfs_realtime stable_argsort example_platform
      "bare.pb" "csv" (Some "bare.csv") example_world
    = (Return empty_DataFrame, w')
    /\ files w' = files example_world
    /\ last_line w' = "No entities were processed.".
Proof.
  apply (@X12_nothing_classified_nothing_written stable_argsort
           example_platform "bare.pb" "csv" (Some "bare.csv") example_world
           "bare" (FeedMessage.mk (FeedHeader.mk "2.0" None) [entity_bare])).
  - reflexivity.
  - reflexivity.
  - exact I.
  - repeat constructor.
Defined.






(** * The web handler as a whole *)

(** ** Files *)

Lemma fs_read_remove_same (p : string) (fs : filesystem) :
  fs_read p (fs_remove p fs) = None.
Proof.
  induction fs as [|[q b] fs IH]; [reflexivity|].
  cbn -[String.eqb]. destruct (String.eqb p q) eqn:E; [exact IH|].
  cbn -[String.eqb]. now rewrite E.
Qed.

Lemma fs_read_remove_other (p q : string) (fs : filesystem) :
  q <> p -> fs_read q (fs_remove p fs) = fs_read q fs.
Proof.
  intros Hqp. induction fs as [|[r b] fs IH]; [reflexivity|].
  cbn -[String.eqb]. destruct (String.eqb p r) eqn:E.
  - apply String.eqb_eq in E. subst r.
    destruct (String.eqb q p) eqn:E'; [|exact IH].
    apply String.eqb_eq in E'. contradiction.
  - cbn -[String.eqb]. now rewrite IH.
Qed.

Lemma fs_read_write_same (p b : string) (fs : filesystem) :
  fs_read p (fs_write p b fs) = Some b.
Proof. unfold fs_write. cbn -[String.eqb]. now rewrite String.eqb_refl. Qed.

Lemma fs_read_write_other (p q b : string) (fs : filesystem) :
  q <> p -> fs_read q (fs_write p b fs) = fs_read q fs.
Proof.
  intros Hqp. unfold fs_write. cbn -[String.eqb].
  destruct (String.eqb q p) eqn:E.
  - apply String.eqb_eq in E. contradiction.
  - now apply fs_read_remove_other.
Qed.

Lemma fs_exists_write_keeps (p q b : string) (fs : filesystem) :
  fs_exists q fs = true -> fs_exists q (fs_write p b fs) = true.
Proof.
  unfold fs_exists. intros Hq.
  destruct (String.eqb q p) eqn:E.
  - apply String.eqb_eq in E. subst q. now rewrite fs_read_write_same.
  - apply String.eqb_neq in E. now rewrite (fs_read_write_other p q b fs E).
Qed.

Lemma fs_exists_write_same (p b : string) (fs : filesystem) :
  fs_exists p (fs_write p b fs) = true.
Proof. unfold fs_exists. now rewrite fs_read_write_same. Qed.

(** ** The run of [upload_file] *)

Section Upload.

Context `{ArgSort} `{Platform}.

(** The table of an upload: the sort raises nothing, and the table has one
    row per record. *)
Lemma web_sorted_frame_ok (feed : FeedMessage.t) :
  exists df,
    sorted_frame (fst (webapp.collect feed)) = Ok df
    /\ length (rows df) = length (fst (webapp.collect feed)).
Proof.
  rewrite web_collect_spec. cbn [fst].
  rewrite (sorted_frame_spec web_record FeedEntity.id web_record_head).
  eexists. split; [reflexivity|]. cbn [rows]. unfold take.
  rewrite !length_map.
  rewrite (Permutation_length (argsort_perm _)), length_seq.
  now rewrite length_map.
Qed.

(** The outcome of the statements of the [try] block and the world they
    leave: the uploaded bytes stay in the temporary file when the decoder
    or the conversion of the timestamp raises; otherwise the two tables
    are written and the temporary file is removed. *)
Lemma process_upload_run (filename content : string) (w : world) :
  webapp.process_upload filename content w
  = let saved :=
      mkWorld (fs_write (temp_path_of filename) content (files w))
              (stdout w) in
    match ParseFromString content with
    | Throw e => (Throw e, saved)
    | Return feed =>
        match timestamp_text feed with
        | Throw e => (Throw e, saved)
        | Return timestamp =>
            match sorted_frame (fst (webapp.collect feed)) with
            | Raise e => (Throw (SortError e), saved)
            | Ok df =>
                (Return
                   (webapp.json_success
                      ("Successfully parsed "
                       ++ py_str_len (FeedMessage.entity feed) ++ " entities")
                      (webapp.mk_feed_info
                         (FeedHeader.version (FeedMessage.header feed))
                         timestamp
                         (length (FeedMessage.entity feed)))
                      (webapp.mk_counts
                         (webapp.count_type "alert"
                            (snd (webapp.collect feed)))
                         (webapp.count_type "trip_update"
                            (snd (webapp.collect feed)))
                         (webapp.count_type "vehicle"
                            (snd (webapp.collect feed))))),
                 mkWorld
                   (fs_remove (temp_path_of filename)
                      (fs_write (json_path_of filename) (to_json df)
                         (fs_write (csv_path_of filename) (to_csv df)
                            (files saved))))
                   (stdout w))
            end
        end
    end.
Proof.
  unfold webapp.process_upload, temp_path_of, csv_path_of, json_path_of.
  cbv zeta.
  rewrite (bind_return _ _ _ _ _ (write_file_run _ _ _)).
  erewrite bind_return.
  2:{ apply read_file_found. cbn [files]. apply fs_read_write_same. }
  destruct (ParseFromString content) as [feed|e].
  2:{ apply bind_throw. apply lift_run. }
  rewrite (bind_return _ _ _ _ _ (lift_run _ _)).
  unfold timestamp_text.
  destruct (FeedHeader.timestamp (FeedMessage.header feed)) as [t|].
  - destruct (fromtimestamp_isoformat t) as [text|e].
    2:{ apply bind_throw. apply bind_throw. apply lift_run. }
    erewrite bind_return.
    2:{ erewrite bind_return; [apply ret_run | apply lift_run]. }
    destruct (webapp.collect feed) as [data entities]. cbn [fst snd].
    destruct (sorted_frame data) as [df|e].
    2:{ apply bind_throw. reflexivity. }
    unfold lift_sort. rewrite (bind_return _ _ _ _ _ (ret_run _ _)).
    rewrite (bind_return _ _ _ _ _ (write_file_run _ _ _)).
    rewrite (bind_return _ _ _ _ _ (write_file_run _ _ _)).
    erewrite bind_return; [reflexivity|].
    unfold remove_file. cbn [files stdout].
    rewrite fs_exists_write_keeps; [reflexivity|].
    apply fs_exists_write_keeps, fs_exists_write_same.
  - rewrite (bind_return _ _ _ _ _ (ret_run _ _)).
    destruct (webapp.collect feed) as [data entities]. cbn [fst snd].
    destruct (sorted_frame data) as [df|e].
    2:{ apply bind_throw. reflexivity. }
    unfold lift_sort. rewrite (bind_return _ _ _ _ _ (ret_run _ _)).
    rewrite (bind_return _ _ _ _ _ (write_file_run _ _ _)).
    rewrite (bind_return _ _ _ _ _ (write_file_run _ _ _)).
    erewrite bind_return; [reflexivity|].
    unfold remove_file. cbn [files stdout].
    rewrite fs_exists_write_keeps; [reflexivity|].
    apply fs_exists_write_keeps, fs_exists_write_same.
Qed.

End Upload.

Section UploadProperties.

Context `{ArgSort} `{Platform}.

Lemma upload_file_accepted (filename content : string) (w : world) :
  filename <> "" ->
  py_endswith filename ".pb" = true ->
  webapp.upload_file (Some (filename, content)) w
  = try_except (webapp.process_upload filename content)
               (fun e => ret (webapp.json_exception e)) w.
Proof.
  intros Hname Hpb. unfold webapp.upload_file.
  destruct (String.eqb filename "") eqn:E.
  - apply String.eqb_eq in E. contradiction.
  - now rewrite Hpb.
Qed.

(** X15: [upload_file] lets no exception escape: it always returns a
    response.  The response is an error of status 400 exactly when the
    request has no file part, the file has an empty name, or the name does
    not end in [.pb]; the three are tested in this order, and the files
    are then left as they were. *)
Theorem X15_upload_is_turned_down_or_tried
  (file : option (string * string)) (w : world) :
  (exists r, fst (webapp.upload_file file w) = Return r)
  /\ ((exists text,
         fst (webapp.upload_file file w)
         = Return (webapp.json_error 400 text))
      <-> turned_down file)
  /\ (turned_down file -> snd (webapp.upload_file file w) = w)
  /\ match file with
     | None =>
         fst (webapp.upload_file file w)
         = Return (webapp.json_error 400 "No file part")
     | Some (filename, _) =>
         (filename = "" ->
          fst (webapp.upload_file file w)
          = Return (webapp.json_error 400 "No selected file"))
         /\ (filename <> "" -> py_endswith filename ".pb" = false ->
             fst (webapp.upload_file file w)
             = Return (webapp.json_error 400 "File must be a .pb file"))
     end.
Proof.
  destruct file as [[filename content]|].
  2:{ repeat split; try reflexivity; try (intros; exact I).
      - eexists; reflexivity.
      - eexists; reflexivity. }
  destruct (String.eqb filename "") eqn:E.
  { apply String.eqb_eq in E. subst filename.
    repeat split; try reflexivity.
    - eexists; reflexivity.
    - intros _. now left.
    - intros _. eexists. reflexivity.
    - intros Hne. now contradiction Hne. }
  apply String.eqb_neq in E.
  destruct (py_endswith filename ".pb") eqn:Hpb.
  2:{ assert (R : webapp.upload_file (Some (filename, content)) w
                  = (Return (webapp.json_error 400 "File must be a .pb file"), w)).
      { unfold webapp.upload_file.
        destruct (String.eqb filename "") eqn:E';
          [apply String.eqb_eq in E'; contradiction|].
        now rewrite Hpb. }
      rewrite R. cbn [fst snd turned_down].
      repeat split; try reflexivity.
      - eexists; reflexivity.
      - intros _. now right.
      - intros _. eexists. reflexivity.
      - intros Hn. contradiction. }
  rewrite (upload_file_accepted filename content w E Hpb).
  unfold try_except. rewrite process_upload_run. cbv zeta.
  assert (Hnot : ~ turned_down (Some (filename, content))).
  { cbn [turned_down]. intros [Hn|Hn]; [contradiction | congruence]. }
  destruct (ParseFromString content) as [feed|e];
    [destruct (timestamp_text feed) as [ts|e];
     [destruct (sorted_frame (fst (webapp.collect feed))) as [df|e]|]|];
    cbn [fst snd ret];
    (split; [eexists; reflexivity|]);
    (split; [split; [intros [text Ht]; discriminate Ht
                    | intros Ht; contradiction]|]);
    (split; [intros Ht; contradiction|]);
    (split; [intros Hn; contradiction | intros _ Hf; discriminate Hf]).
Qed.

(** X16: when the decoder rejects the uploaded bytes, or the timestamp of
    the decoded header cannot be converted, the response carries that
    exception with status 500, no table is written, and the uploaded file
    stays in the temporary directory: the statement that removes it is
    not reached. *)
Theorem X16_failed_upload_leaves_the_file
  (filename content : string) (w : world) (e : raised) :
  filename <> "" ->
  py_endswith filename ".pb" = true ->
  ParseFromString content = Throw e
  \/ (exists feed, ParseFromString content = Return feed
                   /\ timestamp_text feed = Throw e) ->
  webapp.upload_file (Some (filename, content)) w
  = (Return (webapp.json_exception e),
     mkWorld (fs_write (temp_path_of filename) content (files w)) (stdout w))
  /\ fs_read (temp_path_of filename)
             (files (snd (webapp.upload_file (Some (filename, content)) w)))
     = Some content.
Proof.
  intros Hname Hpb Hfail.
  assert (R : webapp.upload_file (Some (filename, content)) w
    = (Return (webapp.json_exception e),
       mkWorld (fs_write (temp_path_of filename) content (files w))
               (stdout w))).
  { rewrite (upload_file_accepted filename content w Hname Hpb).
    unfold try_except. rewrite process_upload_run. cbv zeta.
    destruct Hfail as [-> | (feed & -> & ->)]; reflexivity. }
  rewrite R. split; [reflexivity|]. cbn [snd files].
  apply fs_read_write_same.
Qed.

(** The response to an upload that goes through, and the files it leaves. *)
Lemma successful_upload_run
  (filename content : string) (w : world) (feed : FeedMessage.t)
  (timestamp : option string) :
  filename <> "" ->
  py_endswith filename ".pb" = true ->
  ParseFromString content = Return feed ->
  timestamp_text feed = Return timestamp ->
  exists df counts w',
    sorted_frame (fst (webapp.collect feed)) = Ok df
    /\ webapp.upload_file (Some (filename, content)) w
       = (Return
            (webapp.json_success
               ("Successfully parsed "
                ++ py_str_len (FeedMessage.entity feed) ++ " entities")
               (webapp.mk_feed_info
                  (FeedHeader.version (FeedMessage.header feed))
                  timestamp (length (FeedMessage.entity feed)))
               counts),
          w')
    /\ webapp.alerts counts + webapp.trip_updates counts
       + webapp.vehicle_positions counts = length (rows df)
    /\ fs_read (temp_path_of filename) (files w') = None
    /\ (json_path_of filename <> temp_path_of filename ->
        fs_read (json_path_of filename) (files w') = Some (to_json df))
    /\ (csv_path_of filename <> temp_path_of filename ->
        csv_path_of filename <> json_path_of filename ->
        fs_read (csv_path_of filename) (files w') = Some (to_csv df))
    /\ (forall p,
          p <> temp_path_of filename ->
          p <> csv_path_of filename ->
          p <> json_path_of filename ->
          fs_read p (files w') = fs_read p (files w))
    /\ stdout w' = stdout w.
Proof.
  intros Hname Hpb Hdec Hts.
  destruct (web_sorted_frame_ok feed) as (df & Hdf & Hlen).
  exists df. eexists. eexists.
  split; [exact Hdf|].
  split.
  { rewrite (upload_file_accepted filename content w Hname Hpb).
    unfold try_except. rewrite process_upload_run. cbv zeta.
    rewrite Hdec, Hts, Hdf. reflexivity. }
  cbn [webapp.alerts webapp.trip_updates webapp.vehicle_positions
       files stdout].
  split.
  { rewrite Hlen. apply (web_counts_spec feed). }
  split; [apply fs_read_remove_same|].
  split.
  { intros Hj. rewrite (fs_read_remove_other _ _ _ Hj).
    apply fs_read_write_same. }
  split.
  { intros Hc Hcj. rewrite (fs_read_remove_other _ _ _ Hc).
    rewrite (fs_read_write_other _ _ _ _ Hcj). apply fs_read_write_same. }
  split; [|reflexivity].
  intros p Hp Hpc Hpj.
  rewrite (fs_read_remove_other _ _ _ Hp).
  rewrite (fs_read_write_other _ _ _ _ Hpj).
  rewrite (fs_read_write_other _ _ _ _ Hpc).
  now apply fs_read_write_other.
Qed.


End UploadProperties.

Lemma X16_garbage_upload :
  @webapp.upload_file stable_argsort example_platform
     (Some ("feed.pb", "garbage")) example_world
  = (Return (webapp.json_exception (LibraryError "Error parsing message")),
     mkWorld (fs_write "/tmp/feed.pb" "garbage" (files example_world))
             (stdout example_world))
  /\ fs_read "/tmp/feed.pb"
       (files (snd (@webapp.upload_file stable_argsort example_platform
                      (Some ("feed.pb", "garbage")) example_world)))
     = Some "garbage".
Proof.
  apply (@X16_failed_upload_leaves_the_file stable_argsort example_platform
           "feed.pb" "garbage" example_world
           (LibraryError "Error parsing message")).
  - discriminate.
  - reflexivity.
  - left. reflexivity.
Defined.


(** * Downloads *)

(** X18: [download_file] changes nothing and raises nothing.  Without a
    file name in the request, or with an empty one, it answers 400 [No
    filename provided] whatever the format.  It sends a file only when the
    format is exactly [csv] or [json] and the file of that name and
    extension exists in the temporary directory; the name offered for the
    download is the requested name with the extension. *)
Theorem X18_download_answers `{Platform}
  (format_type : string) (filename : option string) (w : world) :
  snd (webapp.download_file format_type filename w) = w
  /\ (exists r, fst (webapp.download_file format_type filename w) = Return r)
  /\ (py_bool_opt_str filename = false ->
      fst (webapp.download_file format_type filename w)
      = Return (webapp.json_error 400 "No filename provided"))
  /\ (forall path mime name,
        fst (webapp.download_file format_type filename w)
        = Return (webapp.send_file path mime name) ->
        fs_exists path (files w) = true
        /\ path = path_join gettempdir name
        /\ exists base,
             filename = Some base
             /\ base <> ""
             /\ ((format_type = "csv" /\ mime = "text/csv"
                  /\ name = (base ++ ".csv")%string)
                 \/ (format_type = "json" /\ mime = "application/json"
                     /\ name = (base ++ ".json")%string))).
Proof.
  unfold webapp.download_file. cbv zeta.
  destruct filename as [[|c base]|]; cbn [py_bool_str py_bool_opt_str negb].
  1,3: (cbn [ret fst snd];
        split; [reflexivity|]; split; [eexists; reflexivity|];
        split; [reflexivity|];
        intros path mime name Hs; discriminate Hs).
  destruct (String.eqb format_type "csv") eqn:Ec.
  - apply String.eqb_eq in Ec. subst format_type.
    unfold bind_io, path_exists.
    destruct (fs_exists (path_join gettempdir (String c base ++ ".csv"))
                        (files w)) eqn:Ex; cbn [negb ret fst snd].
    + split; [reflexivity|]. split; [eexists; reflexivity|].
      split; [intros Hf; discriminate Hf|].
      intros path mime name Hs. injection Hs as <- <- <-.
      split; [exact Ex|]. split; [reflexivity|].
      exists (String c base). split; [reflexivity|].
      split; [discriminate|]. left. repeat split.
    + split; [reflexivity|]. split; [eexists; reflexivity|].
      split; [intros Hf; discriminate Hf|].
      intros path mime name Hs. discriminate Hs.
  - destruct (String.eqb format_type "json") eqn:Ej.
    + apply String.eqb_eq in Ej. subst format_type.
      unfold bind_io, path_exists.
      destruct (fs_exists (path_join gettempdir (String c base ++ ".json"))
                          (files w)) eqn:Ex; cbn [negb ret fst snd].
      * split; [reflexivity|]. split; [eexists; reflexivity|].
        split; [intros Hf; discriminate Hf|].
        intros path mime name Hs. injection Hs as <- <- <-.
        split; [exact Ex|]. split; [reflexivity|].
        exists (String c base). split; [reflexivity|].
        split; [discriminate|]. right. repeat split.
      * split; [reflexivity|]. split; [eexists; reflexivity|].
        split; [intros Hf; discriminate Hf|].
        intros path mime name Hs. discriminate Hs.
    + cbn [ret fst snd].
      split; [reflexivity|]. split; [eexists; reflexivity|].
      split; [intros Hf; discriminate Hf|].
      intros path mime name Hs. discriminate Hs.
Qed.

(** X19: after an upload that went through, asking [download_file] for
    the name of the uploaded file without its extension sends the tables
    the upload wrote: for [csv] the file that holds the CSV of the sorted
    table, for [json] the one that holds its JSON.  (The three paths of
    the upload are taken to differ, as they do when joining keeps the
    extensions.) *)
Theorem X19_download_after_upload `{ArgSort} `{Platform}
  (filename content : string) (w : world) (feed : FeedMessage.t)
  (timestamp : option string) :
  filename <> "" ->
  py_endswith filename ".pb" = true ->
  ParseFromString content = Return feed ->
  timestamp_text feed = Return timestamp ->
  splitext_root filename <> "" ->
  csv_path_of filename <> temp_path_of filename ->
  json_path_of filename <> temp_path_of filename ->
  csv_path_of filename <> json_path_of filename ->
  let w' := snd (webapp.upload_file (Some (filename, content)) w) in
  let root := splitext_root filename in
  exists df,
    sorted_frame (fst (webapp.collect feed)) = Ok df
    /\ webapp.download_file "csv" (Some root) w'
       = (Return (webapp.send_file (csv_path_of filename) "text/csv"
                                   (root ++ ".csv")), w')
    /\ fs_read (csv_path_of filename) (files w') = Some (to_csv df)
    /\ webapp.download_file "json" (Some root) w'
       = (Return (webapp.send_file (json_path_of filename) "application/json"
                                   (root ++ ".json")), w')
    /\ fs_read (json_path_of filename) (files w') = Some (to_json df).
Proof.
  intros Hname Hpb Hdec Hts Hroot Hct Hjt Hcj. cbv zeta.
  destruct (successful_upload_run filename content w feed timestamp
              Hname Hpb Hdec Hts)
    as (df & counts & w' & Hdf & Hrun & _ & _ & Hjson & Hcsv & _).
  rewrite Hrun. cbn [snd].
  specialize (Hjson Hjt). specialize (Hcsv Hct Hcj).
  exists df. split; [exact Hdf|].
  assert (Hb : py_bool_str (splitext_root filename) = true).
  { destruct (splitext_root filename); [now contradiction Hroot | reflexivity]. }
  split; [|split; [exact Hcsv|split; [|exact Hjson]]].
  - unfold webapp.download_file. cbv zeta. rewrite Hb. cbn [negb].
    replace (String.eqb "csv" "csv") with true by reflexivity.
    unfold bind_io, path_exists. fold (csv_path_of filename).
    rewrite (fs_read_exists _ _ _ Hcsv). reflexivity.
  - unfold webapp.download_file. cbv zeta. rewrite Hb. cbn [negb].
    replace (String.eqb "json" "csv") with false by reflexivity.
    replace (String.eqb "json" "json") with true by reflexivity.
    unfold bind_io, path_exists. fold (json_path_of filename).
    rewrite (fs_read_exists _ _ _ Hjson). reflexivity.
Qed.

Lemma X19_scenario_round_trip :
  exists df,
    @sorted_frame stable_argsort (fst (webapp.collect feed_tu1)) = Ok df
    /\ @webapp.download_file example_platform "csv" (Some "feed")
         (snd (@webapp.upload_file stable_argsort example_platform
                 (Some ("feed.pb", "tu1")) example_world))
       = (Return (webapp.send_file "/tmp/feed.csv" "text/csv" "feed.csv"),
          snd (@webapp.upload_file stable_argsort example_platform
                 (Some ("feed.pb", "tu1")) example_world))
    /\ fs_read "/tmp/feed.csv"
         (files (snd (@webapp.upload_file stable_argsort example_platform
                        (Some ("feed.pb", "tu1")) example_world)))
       = Some (@to_csv example_platform df)
    /\ @webapp.download_file example_platform "json" (Some "feed")
         (snd (@webapp.upload_file stable_argsort example_platform
                 (Some ("feed.pb", "tu1")) example_world))
       = (Return (webapp.send_file "/tmp/feed.json" "application/json"
                                   "feed.json"),
          snd (@webapp.upload_file stable_argsort example_platform
                 (Some ("feed.pb", "tu1")) example_world))
    /\ fs_read "/tmp/feed.json"
         (files (snd (@webapp.upload_file stable_argsort example_platform
                        (Some ("feed.pb", "tu1")) example_world)))
       = Some (@to_json example_platform df).
Proof.
  apply (@X19_download_after_upload stable_argsort example_platform
           "feed.pb" "tu1" example_world feed_tu1
           (Some "2023-11-14T22:13:20"));
    try reflexivity; discriminate.
Defined.

(** * The table of the web handler *)

Section SortedFrameRows.

Context `{ArgSort}.
Context {E : Type}.
Variable record : E -> dict.
Variable ident : E -> string.
Hypothesis record_head :
  forall e, exists rest, record e = ("Entity ID", PStr (ident e)) :: rest.

Lemma frame_entity_ids (es : list E) :
  let df0 := pd_DataFrame (map record es) in
  map (entity_id_of df0) (rows df0) = map ident es.
Proof.
  cbv zeta. destruct es as [|e es]; [reflexivity|].
  assert (Hcol : existsb (String.eqb "Entity ID")
                   (union_keys (map record (e :: es))) = true).
  { simpl map. destruct (record_head e) as [rest ->].
    apply union_keys_first. }
  destruct (index_of_present _ _ Hcol) as [j Hj].
  unfold entity_id_of, row_get. rewrite pd_DataFrame_columns, Hj.
  rewrite pd_DataFrame_rows, !map_map. apply map_ext. intros x.
  rewrite (row_of_cell _ _ _ _ Hj).
  destruct (record_head x) as [rest ->]. reflexivity.
Qed.

(** The sorted frame of such records has the rows of their frame, in
    ascending order of [Entity ID]. *)
Lemma sorted_frame_rows (es : list E) :
  let df0 := pd_DataFrame (map record es) in
  exists df,
    sorted_frame (map record es) = Ok df
    /\ columns df = columns df0
    /\ Permutation (rows df) (rows df0)
    /\ Sorted str_le (map (entity_id_of df) (rows df))
    /\ Permutation (map (entity_id_of df) (rows df)) (map ident es).
Proof.
  cbv zeta.
  assert (G : exists df,
    sorted_frame (map record es) = Ok df
    /\ columns df = columns (pd_DataFrame (map record es))
    /\ Permutation (rows df) (rows (pd_DataFrame (map record es)))
    /\ Sorted str_le (map (entity_id_of df) (rows df))).
  { unfold sorted_frame. cbv zeta. destruct es as [|e es].
    - exists (pd_DataFrame []). repeat split; constructor.
    - assert (Hcol : existsb (String.eqb "Entity ID")
                       (union_keys (map record (e :: es))) = true).
      { simpl map. destruct (record_head e) as [rest ->].
        apply union_keys_first. }
      assert (Hhc : has_column "Entity ID" (pd_DataFrame (map record (e :: es)))
                    = true) by exact Hcol.
      rewrite Hhc.
      destruct (index_of_present _ _ Hcol) as [j Hj].
      apply (sort_values_spec "Entity ID" _ j (map ident (e :: es)));
        [exact Hj|].
      unfold column_values. rewrite pd_DataFrame_rows, !map_map.
      apply str_keys_map. intros x. rewrite (row_of_cell _ _ _ _ Hj).
      destruct (record_head x) as [rest ->]. reflexivity. }
  destruct G as (df & H1 & H2 & H3 & H4).
  exists df. repeat split; try assumption.
  rewrite <- frame_entity_ids.
  rewrite (map_ext _ _ (fun r => entity_id_of_columns _ _ r H2)).
  now apply Permutation_map.
Qed.

End SortedFrameRows.

(** X20: the table [upload_file] writes has exactly one row per classified
    entity of the feed, the row of the record the web loop built for it,
    and its rows are in ascending order of [Entity ID] under the
    case-sensitive comparison of strings; its [Entity ID] cells are the
    identifiers of the classified entities. *)
Theorem X20_web_table_sorted `{ArgSort} (feed : FeedMessage.t) :
  let es := filter classified (FeedMessage.entity feed) in
  let df0 := pd_DataFrame (map web_record es) in
  exists df,
    sorted_frame (fst (webapp.collect feed)) = Ok df
    /\ columns df = columns df0
    /\ Permutation (rows df) (rows df0)
    /\ length (rows df) = length es
    /\ Sorted str_le (map (entity_id_of df) (rows df))
    /\ Permutation (map (entity_id_of df) (rows df)) (map FeedEntity.id es).
Proof.
  cbv zeta. rewrite web_collect_spec. cbn [fst].
  destruct (sorted_frame_rows web_record FeedEntity.id web_record_head
              (filter classified (FeedMessage.entity feed)))
    as (df & H1 & H2 & H3 & H4 & H5).
  exists df. repeat split; try assumption.
  rewrite (Permutation_length H3), pd_DataFrame_rows, !length_map.
  reflexivity.
Qed.

(** X21: a feed whose header carries a timestamp that cannot be converted
    to a date makes [parse_gtfs_realtime] raise the exception of the
    conversion after it has printed the version line and nothing else: no
    entity is processed and no file is written, although no record uses
    the header timestamp. *)
Theorem X21_unprintable_header_stops_the_parse `{ArgSort} `{Platform}
  (pb_file_path output_format : string) (output_file : option string)
  (w : world) (bytes : string) (feed : FeedMessage.t) (t : Z) (e : raised) :
  fs_read pb_file_path (files w) = Some bytes ->
  ParseFromString bytes = Return feed ->
  FeedHeader.timestamp (FeedMessage.header feed) = Some t ->
  fromtimestamp_str t = Throw e ->
  gtfs_parser_main.parse_gtfs_realtime pb_file_path output_format output_file w
  = (Throw e,
     mkWorld (files w)
       (stdout w
        ++ [("GTFS Realtime Feed Version: "
             ++ FeedHeader.version (FeedMessage.header feed))%string])).
Proof.
  intros Hread Hdec Ht He.
  rewrite parse_whole_run, Hread, Hdec.
  unfold header_lines. cbv zeta. now rewrite Ht, He.
Qed.

Lemma X21_timestamp_out_of_range :
  @gtfs_parser_main.parse_gtfs_realtime stable_argsort example_platform
     "late.pb" "csv" (Some "late.csv") example_world
  = (Throw (LibraryError "year is out of range"),
     mkWorld (files example_world) ["GTFS Realtime Feed Version: 2.0"]).
Proof.
  apply (@X21_unprintable_header_stops_the_parse stable_argsort
           example_platform "late.pb" "csv" (Some "late.csv") example_world
           "late"
           (FeedMessage.mk (FeedHeader.mk "2.0" (Some (10 ^ 18)%Z))
                           [entity_tu1])
           (10 ^ 18)%Z (LibraryError "year is out of range"));
    reflexivity.
Defined.

(** * Entities without payload and empty feeds, in the whole function *)

(** With a readable input that decodes and whose header can be printed,
    the function returns the frame that the flattening and sorting of the
    decoded feed gives. *)
Lemma parse_whole_returns `{ArgSort} `{Platform}
  (pb_file_path output_format : string) (output_file : option string)
  (w : world) (bytes : string) (feed : FeedMessage.t) :
  fs_read pb_file_path (files w) = Some bytes ->
  ParseFromString bytes = Return feed ->
  header_printable feed ->
  exists df w',
    gtfs_parser_main.parse_gtfs_realtime
      pb_file_path output_format output_file w = (Return df, w')
    /\ gtfs_parser.parse_gtfs_realtime feed = Ok df.
Proof.
  intros Hread Hdec Hprint.
  rewrite parse_whole_run, Hread, Hdec.
  destruct (header_printable_lines feed Hprint) as [lines ->].
  cbv zeta.
  destruct (parse_spec feed) as (df & Hdf & _).
  pose proof Hdf as Hsorted. rewrite parse_is_sorted_frame in Hsorted.
  destruct (gtfs_parser.collect_data feed) as [|d data] eqn:Hdata.
  - exists empty_DataFrame. eexists. split; [reflexivity|].
    now rewrite parse_is_sorted_frame, Hdata.
  - rewrite Hsorted. exists df. eexists. split; [reflexivity | exact Hdf].
Qed.




(** C8, as stated, fails: a feed without entities whose header timestamp
    is out of the range of dates makes the function raise after the
    version line instead of returning the empty frame. *)
Lemma C8_empty_feed_with_unconvertible_timestamp_raises :
  @ParseFromString header_platform "late-empty"
    = Return (FeedMessage.mk (FeedHeader.mk "2.0" (Some (10 ^ 18)%Z)) [])
  /\ @gtfs_parser_main.parse_gtfs_realtime stable_argsort header_platform
       "late-empty.pb" "csv" None header_world
     = (Throw (LibraryError "year is out of range"),
        mkWorld (files header_world) ["GTFS Realtime Feed Version: 2.0"]).
Proof. split; reflexivity. Qed.

(** C8, amended: when the header of the feed has no timestamp, or one that
    [datetime.fromtimestamp] converts, a feed without entities, and a feed
    none of whose entities is classified, make the function return the
    empty frame, a result with no record, and raise nothing. *)
Theorem C8_nothing_classified_gives_empty_frame_when_header_prints
  `{ArgSort} `{Platform}
  (pb_file_path output_format : string) (output_file : option string)
  (w : world) (bytes : string) (feed : FeedMessage.t) :
  fs_read pb_file_path (files w) = Some bytes ->
  ParseFromString bytes = Return feed ->
  header_printable feed ->
  FeedMessage.entity feed = []
  \/ Forall (fun e => classified e = false) (FeedMessage.entity feed) ->
  exists w',
    gtfs_parser_main.parse_gtfs_realtime
      pb_file_path output_format output_file w = (Return empty_DataFrame, w')
    /\ to_records empty_DataFrame = [].
Proof.
  intros Hread Hdec Hprint Hno.
  destruct (parse_whole_returns pb_file_path output_format output_file w
              bytes feed Hread Hdec Hprint) as (df & w' & Hrun & Hdf).
  destruct (frame_of_nothing_classified feed Hno) as [Hempty _].
  rewrite Hempty in Hdf. injection Hdf as <-.
  exists w'. split; [exact Hrun | reflexivity].
Qed.

Lemma C8_empty_feed_and_bare_feed :
  (exists w',
     @gtfs_parser_main.parse_gtfs_realtime stable_argsort header_platform
       "empty.pb" "csv" None header_world = (Return empty_DataFrame, w')
     /\ to_records empty_DataFrame = [])
  /\ (exists w',
        @gtfs_parser_main.parse_gtfs_realtime stable_argsort example_platform
          "bare.pb" "csv" None example_world = (Return empty_DataFrame, w')
        /\ to_records empty_DataFrame = []).
Proof.
  split.
  - apply (@C8_nothing_classified_gives_empty_frame_when_header_prints
             stable_argsort header_platform "empty.pb" "csv" None
             header_world "empty" feed_empty);
      first [reflexivity
            | now exists "2023-11-14 22:13:20"
            | now left].
  - apply (@C8_nothing_classified_gives_empty_frame_when_header_prints
             stable_argsort example_platform "bare.pb" "csv" None
             example_world "bare"
             (FeedMessage.mk (FeedHeader.mk "2.0" None) [entity_bare]));
      first [reflexivity | exact I | right; repeat constructor].
Defined.
